(** * Pendo OpenFeature server provider: model and verified properties

    This development embeds the server-side flag-resolution pipeline of
    [packages/server-provider]:

    - [src/jzb.ts]            : [encodeJzb]  (JSON -> zlib -> URL-safe Base64),
      together with the decoder [decodeJzb] of [test/jzb.spec.ts];
    - [src/PendoProvider.ts]  : the provider class (constructor, [initialize],
      [onClose], [track], the four [resolve*Evaluation] methods,
      [getSegmentFlags], [fetchSegmentFlags], [clearCache]).

    Conventions.  JavaScript strings are [string]; the compressed buffer is a
    [list byte]; the numbers that occur (epoch milliseconds, TTLs, HTTP
    statuses, numeric flag values) are integers and live in [Z]; the
    provider's [Map<string, CacheEntry>] is a [gmap string CacheEntry].
    Methods that touch the provider, the clock, the console or the network
    are written in a state-and-exception monad [M]; [await] is sequencing,
    and calls are not interleaved. *)

From Stdlib Require Import ZArith NArith Lia List Ascii String.
From Stdlib.Strings Require Import Byte.
From stdpp Require Import base option list gmap strings pretty.

#[local] Set Warnings "-register-all".

Open Scope Z_scope.
Open Scope string_scope.

(** ** JavaScript values *)

(** The values that flow through the provider: evaluation defaults of type
    [JsonValue], tracking details, and the object literals the code builds
    (whose properties may hold [undefined]). *)
Inductive JsValue : Type :=
  | JUndefined
  | JNull
  | JBool (b : bool)
  | JNum (n : Z)
  | JStr (s : string)
  | JArr (items : list JsValue)
  | JObj (props : list (string * JsValue)).

(** [Record<string, unknown>]: own properties in insertion order. *)
Definition JsObject : Type := list (string * JsValue).

(** [x || ""] and [!x] on a [string | undefined]: the empty string and
    [undefined] are the falsy inhabitants. *)
Definition truthy (x : option string) : bool :=
  match x with
  | Some s => negb (String.eqb s "")
  | None => false
  end.

Definition or_empty (x : option string) : string :=
  match x with
  | Some s => s
  | None => ""
  end.

(** A property holding a [string | undefined]. *)
Definition js_of_opt_string (x : option string) : JsValue :=
  match x with
  | Some s => JStr s
  | None => JUndefined
  end.

(** ** Base64, as produced and consumed by Node's [Buffer] *)

Module Base64.

Definition alphabet : string :=
  "ABCDEFGHIJKLMNOPQRSTUVWXYZabcdefghijklmnopqrstuvwxyz0123456789+/".

(** The character of a 6-bit group. *)
Definition char_of_sextet (n : N) : ascii :=
  match String.get (N.to_nat n) alphabet with
  | Some c => c
  | None => "="%char
  end.

(** The 6-bit group of a character.  Node's decoder accepts the standard
    and the URL-safe alphabet. *)
Definition sextet_of_char (c : ascii) : option N :=
  let n := N_of_ascii c in
  if (65 <=? n)%N && (n <=? 90)%N then Some (n - 65)%N
  else if (97 <=? n)%N && (n <=? 122)%N then Some (n - 71)%N
  else if (48 <=? n)%N && (n <=? 57)%N then Some (n + 4)%N
  else if (n =? 43)%N || (n =? 45)%N then Some 62%N
  else if (n =? 47)%N || (n =? 95)%N then Some 63%N
  else None.

Definition byte_of_N (n : N) : byte :=
  match Byte.of_N (n mod 256) with
  | Some b => b
  | None => x00
  end.

(** [buf.toString("base64")]: three bytes become four characters; a tail
    of one or two bytes is padded with [=]. *)
Fixpoint encode (bs : list byte) : string :=
  match bs with
  | [] => ""
  | [a] =>
      let x := Byte.to_N a in
      String (char_of_sextet (x / 4))
        (String (char_of_sextet (x mod 4 * 16)) "==")
  | [a; b] =>
      let x := Byte.to_N a in
      let y := Byte.to_N b in
      String (char_of_sextet (x / 4))
        (String (char_of_sextet (x mod 4 * 16 + y / 16))
           (String (char_of_sextet (y mod 16 * 4)) "="))
  | a :: b :: c :: rest =>
      let x := Byte.to_N a in
      let y := Byte.to_N b in
      let z := Byte.to_N c in
      String (char_of_sextet (x / 4))
        (String (char_of_sextet (x mod 4 * 16 + y / 16))
           (String (char_of_sextet (y mod 16 * 4 + z / 64))
              (String (char_of_sextet (z mod 64)) (encode rest))))
  end%N.

(** The 6-bit groups of the data part of a Base64 text: decoding stops at
    the first [=] and skips characters outside the alphabets. *)
Fixpoint sextets (s : string) : list N :=
  match s with
  | EmptyString => []
  | String c rest =>
      if Ascii.eqb c "=" then []
      else match sextet_of_char c with
           | Some n => n :: sextets rest
           | None => sextets rest
           end
  end.

(** Four groups give three bytes; a tail of three groups gives two bytes,
    of two groups one byte, and a lone group is dropped. *)
Fixpoint pack (xs : list N) : list byte :=
  match xs with
  | s1 :: s2 :: s3 :: s4 :: rest =>
      byte_of_N (s1 * 4 + s2 / 16)
        :: byte_of_N (s2 mod 16 * 16 + s3 / 4)
        :: byte_of_N (s3 mod 4 * 64 + s4)
        :: pack rest
  | [s1; s2; s3] =>
      [byte_of_N (s1 * 4 + s2 / 16); byte_of_N (s2 mod 16 * 16 + s3 / 4)]
  | [s1; s2] => [byte_of_N (s1 * 4 + s2 / 16)]
  | _ => []
  end%N.

(** [Buffer.from(text, "base64")]. *)
Definition decode (s : string) : list byte := pack (sextets s).

End Base64.

(** ** String helpers of [jzb.ts] and of its test decoder *)

(** [s.replace(/c/g, d)] for a single character [c]. *)
Fixpoint replace_all (c d : ascii) (s : string) : string :=
  match s with
  | EmptyString => EmptyString
  | String x rest =>
      String (if Ascii.eqb x c then d else x) (replace_all c d rest)
  end.

(** [s.replace(/=+$/, "")]: drop the maximal run of [=] that ends the
    string. *)
Fixpoint strip_padding (s : string) : string :=
  match s with
  | EmptyString => EmptyString
  | String x rest =>
      match strip_padding rest with
      | EmptyString => if Ascii.eqb x "=" then EmptyString else String x EmptyString
      | r => String x r
      end
  end.

(** ["=".repeat(n)]. *)
Fixpoint repeat_eq (n : nat) : string :=
  match n with
  | O => EmptyString
  | S k => String "=" (repeat_eq k)
  end.

(** The test [/^[A-Za-z0-9_-]+$/]. *)
Definition url_safe_char (c : ascii) : bool :=
  let n := N_of_ascii c in
  ((65 <=? n)%N && (n <=? 90)%N)
  || ((97 <=? n)%N && (n <=? 122)%N)
  || ((48 <=? n)%N && (n <=? 57)%N)
  || (n =? 95)%N || (n =? 45)%N.

Fixpoint all_chars (p : ascii -> bool) (s : string) : bool :=
  match s with
  | EmptyString => true
  | String c rest => p c && all_chars p rest
  end.

Definition matches_url_safe (s : string) : bool :=
  negb (String.eqb s "") && all_chars url_safe_char s.

(** ** [jzb.ts] *)

Section Jzb.

(** [JSON.stringify] / [JSON.parse] (ECMAScript) and [pako.deflate] /
    [pako.inflate(_, {to: "string"})] (the pako package, which also does
    the UTF-8 conversion) are not code of this repository: the encoder is
    parameterised by them. *)
Variable JSON_stringify : JsObject -> string.
Variable JSON_parse : string -> option JsObject.
Variable pako_deflate : string -> list byte.
Variable pako_inflate : list byte -> option string.

Definition encodeJzb (payload : JsObject) : string :=
  (* Step 1: Convert to JSON string *)
  let jsonString := JSON_stringify payload in
  (* Step 2: Compress with zlib (deflate) *)
  let compressed := pako_deflate jsonString in
  (* Step 3: Convert to base64 *)
  let base64 := Base64.encode compressed in
  (* Step 4: Make URL-safe *)
  let urlSafe :=
    strip_padding (replace_all "/" "_" (replace_all "+" "-" base64)) in
  urlSafe.

(** [decodeJzb] of [test/jzb.spec.ts]; [None] stands for an exception of
    [pako.inflate] or [JSON.parse]. *)
Definition decodeJzb (encoded : string) : option JsObject :=
  let base64 := replace_all "_" "/" (replace_all "-" "+" encoded) in
  let padding := (String.length base64 mod 4)%nat in
  let base64 :=
    if (0 <? padding)%nat then base64 ++ repeat_eq (4 - padding) else base64 in
  let compressed := Base64.decode base64 in
  match pako_inflate compressed with
  | Some jsonString => JSON_parse jsonString
  | None => None
  end.

End Jzb.

(** ** Exceptions, promises and the provider's world *)

(** What a [throw] or a rejected promise carries: an [Error] instance with
    its [message], or any other value. *)
Inductive Thrown : Type :=
  | ErrorObj (message : string)
  | NonError.

(** How a call (or an awaited promise) ends. *)
Inductive Outcome (A : Type) : Type :=
  | Returned (a : A)
  | Threw (e : Thrown).

Arguments Returned {A} a.
Arguments Threw {A} e.

(** [ServerProviderStatus] and [ErrorCode] of [@openfeature/server-sdk]. *)
Inductive ServerProviderStatus : Type :=
  | NOT_READY | READY | ERROR | STALE | FATAL.

Inductive ErrorCode : Type :=
  | PROVIDER_NOT_READY | PROVIDER_FATAL | FLAG_NOT_FOUND | PARSE_ERROR
  | TYPE_MISMATCH | TARGETING_KEY_MISSING | INVALID_CONTEXT | GENERAL.

(** [ResolutionDetails<T>]; every result built by the provider sets
    [value] and [reason], the other members are optional. *)
Record ResolutionDetails (T : Type) : Type := mkResolution {
  value : T;
  reason : string;
  variant : option string;
  errorCode : option ErrorCode;
  errorMessage : option string
}.

Arguments mkResolution {T}.
Arguments value {T}.
Arguments reason {T}.
Arguments variant {T}.
Arguments errorCode {T}.
Arguments errorMessage {T}.

(** [EvaluationContext]: the two members the provider reads. *)
Record EvaluationContext : Type := mkContext {
  targetingKey : option string;
  accountId : option string
}.

(** [PendoProviderOptions] as passed to the constructor, and the options
    the provider keeps ([baseUrl] and [cacheTtl] filled in). *)
Record PendoProviderOptions : Type := mkProviderOptions {
  opt_apiKey : string;
  opt_defaultUrl : string;
  opt_baseUrl : option string;
  opt_cacheTtl : option Z;
  opt_trackEventSecret : option string
}.

Record Options : Type := mkOptions {
  apiKey : string;
  defaultUrl : string;
  baseUrl : string;
  cacheTtl : Z;
  trackEventSecret : option string
}.

Record CacheEntry : Type := mkCacheEntry {
  flags : list string;
  expiresAt : Z
}.

(** A call of the global [fetch], and what the promise settles to. *)
Record Request : Type := mkRequest {
  req_url : string;
  req_method : string;
  req_headers : list (string * string);
  req_body : option string
}.

(** The parsed body [{ segmentFlags?: string[] }]. *)
Record ResponseData : Type := mkData {
  segmentFlags : option (list string)
}.

Record Response : Type := mkResponse {
  resp_ok : bool;
  resp_status : Z;
  resp_statusText : string;
  resp_json : Outcome ResponseData
}.

(** A settled [fetch]: the response or the rejection, and the milliseconds
    that went by while the caller awaited it (body included). *)
Record Reply : Type := mkReply {
  settled : Outcome Response;
  elapsed : N
}.

Inductive LogRecord : Type :=
  | Warn (msg : string)
  | Error (msg : string) (e : Thrown).

(** The provider instance ([options], [status], [cache]) and the parts of
    the environment it acts on: the clock read by [Date.now()], the calls
    made to [fetch] (oldest first) and the console. *)
Record State : Type := mkState {
  options : Options;
  status : ServerProviderStatus;
  cache : gmap string CacheEntry;
  now : Z;
  requests : list Request;
  console : list LogRecord
}.

Definition set_status (x : ServerProviderStatus) (s : State) : State :=
  mkState (options s) x (cache s) (now s) (requests s) (console s).
Definition set_cache (x : gmap string CacheEntry) (s : State) : State :=
  mkState (options s) (status s) x (now s) (requests s) (console s).
Definition set_now (x : Z) (s : State) : State :=
  mkState (options s) (status s) (cache s) x (requests s) (console s).
Definition set_requests (x : list Request) (s : State) : State :=
  mkState (options s) (status s) (cache s) (now s) x (console s).
Definition set_console (x : list LogRecord) (s : State) : State :=
  mkState (options s) (status s) (cache s) (now s) (requests s) x.

(** *** The monad of provider methods *)

Definition M (A : Type) : Type := State -> Outcome A * State.

Definition ret {A} (a : A) : M A := fun s => (Returned a, s).

Definition throw {A} (e : Thrown) : M A := fun s => (Threw e, s).

Definition bind {A B} (m : M A) (k : A -> M B) : M B :=
  fun s =>
    match m s with
    | (Returned a, s') => k a s'
    | (Threw e, s') => (Threw e, s')
    end.

(** [try { m } catch (error) { handler }]. *)
Definition try_catch {A} (m : M A) (handler : Thrown -> M A) : M A :=
  fun s =>
    match m s with
    | (Returned a, s') => (Returned a, s')
    | (Threw e, s') => handler e s'
    end.

Definition gets {A} (f : State -> A) : M A := fun s => (Returned (f s), s).

Definition modify (f : State -> State) : M unit := fun s => (Returned tt, f s).

Notation "'let*' x ':=' m 'in' k" := (bind m (fun x => k))
  (at level 10, x name, m at level 100, k at level 200).

Definition Date_now : M Z := gets now.

Definition console_warn (msg : string) : M unit :=
  modify (fun s => set_console (console s ++ [Warn msg]) s).

Definition console_error (msg : string) (e : Thrown) : M unit :=
  modify (fun s => set_console (console s ++ [Error msg e]) s).

(** [error instanceof Error ? error.message : "Unknown error"]. *)
Definition message_of (error : Thrown) : string :=
  match error with
  | ErrorObj m => m
  | NonError => "Unknown error"
  end.

(** [flags.includes(flagKey)]. *)
Definition includes (l : list string) (x : string) : bool :=
  existsb (String.eqb x) l.

(** The constructor: [{ baseUrl: "https://data.pendo.io", cacheTtl: 60000,
    ...options }], status [NOT_READY], an empty cache. *)
Definition new_options (o : PendoProviderOptions) : Options :=
  {| apiKey := opt_apiKey o;
     defaultUrl := opt_defaultUrl o;
     baseUrl := default "https://data.pendo.io" (opt_baseUrl o);
     cacheTtl := default 60000 (opt_cacheTtl o);
     trackEventSecret := opt_trackEventSecret o |}.

Definition new_PendoProvider (o : PendoProviderOptions) (t : Z) : State :=
  {| options := new_options o;
     status := NOT_READY;
     cache := ∅;
     now := t;
     requests := [];
     console := [] |}.

(** ** [PendoProvider.ts] *)

Section Provider.

(** The builtins used by [encodeJzb] and by [track], and the remote
    service: what the [n]-th call of [fetch] settles to may depend on the
    calls made before it. *)
Variable JSON_stringify : JsObject -> string.
Variable pako_deflate : string -> list byte.
Variable network : list Request -> Request -> Reply.

(** [await fetch(url, init)]: the call is recorded, the clock moves on
    while the caller is suspended, and the promise settles. *)
Definition fetch (req : Request) : M Response :=
  fun s =>
    let r := network (requests s) req in
    (settled r,
     set_now (now s + Z.of_N (elapsed r))
       (set_requests (requests s ++ [req]) s)).

(** [fetch(url, init).catch(on_reject)] without [await]: the call is
    recorded and the caller goes on at once; a rejection only runs the
    handler, whose own outcome nobody observes. *)
Definition fetch_detached (req : Request) (on_reject : Thrown -> M unit)
  : M unit :=
  fun s =>
    let r := network (requests s) req in
    let s' := set_requests (requests s ++ [req]) s in
    match settled r with
    | Returned _ => (Returned tt, s')
    | Threw e => (Returned tt, snd (on_reject e s'))
    end.

(** [await response.json()]. *)
Definition response_json (response : Response) : M ResponseData :=
  fun s => (resp_json response, s).

Definition initialize : M unit :=
  let* o := gets options in
  if String.eqb (apiKey o) "" then
    throw (ErrorObj "Pendo API key is required")
  else if String.eqb (defaultUrl o) "" then
    throw (ErrorObj "Pendo defaultUrl is required for server-side evaluation")
  else
    modify (set_status READY).

Definition onClose : M unit :=
  let* _ := modify (set_status NOT_READY) in
  modify (set_cache ∅).

Definition clearCache : M unit :=
  modify (set_cache ∅).

Definition track (trackingEventName : string) (context : EvaluationContext)
    (trackingEventDetails : JsValue) : M unit :=
  let* o := gets options in
  if negb (truthy (trackEventSecret o)) then
    console_warn "[PendoProvider] trackEventSecret is required to track events"
  else
    let visitorId := targetingKey context in
    if negb (truthy visitorId) then
      console_warn
        "[PendoProvider] targetingKey (visitorId) is required to track events"
    else
      let accountId := accountId context in
      let* timestamp := Date_now in
      let payload :=
        [ ("type", JStr "track");
          ("event", JStr trackingEventName);
          ("visitorId", js_of_opt_string visitorId);
          ("accountId", js_of_opt_string accountId);
          ("timestamp", JNum timestamp);
          ("properties", trackingEventDetails) ] in
      (* Fire-and-forget: don't await *)
      fetch_detached
        {| req_url := baseUrl o ++ "/data/track";
           req_method := "POST";
           req_headers :=
             [ ("Content-Type", "application/json");
               ("x-pendo-track-event-secret", or_empty (trackEventSecret o)) ];
           req_body := Some (JSON_stringify payload) |}
        (fun error =>
           console_error "[PendoProvider] Failed to track event:" error).

(** Fetch segment flags from the Pendo API using a JZB-encoded payload. *)
Definition fetchSegmentFlags (visitorId : string) (accountId : option string)
  : M (list string) :=
  let* o := gets options in
  let jzbPayload :=
    encodeJzb JSON_stringify pako_deflate
      [ ("visitorId", JStr visitorId);
        ("accountId", js_of_opt_string accountId);
        ("url", JStr (defaultUrl o)) ] in
  let url :=
    baseUrl o ++ "/data/segmentflag.json/" ++ apiKey o ++ "?jzb=" ++ jzbPayload in
  let* response :=
    fetch {| req_url := url;
             req_method := "GET";
             req_headers := [("Accept", "application/json")];
             req_body := None |} in
  if (resp_status response =? 202)%Z then
    ret []
  else if (resp_status response =? 429)%Z then
    throw (ErrorObj "Pendo API rate limit exceeded")
  else if (resp_status response =? 451)%Z then
    ret []
  else if negb (resp_ok response) then
    throw (ErrorObj ("Pendo API error: " ++ pretty (resp_status response)
                       ++ " " ++ resp_statusText response))
  else
    let* data := response_json response in
    ret (default [] (segmentFlags data)).

(** [`${visitorId}:${accountId || ""}`]. *)
Definition cacheKey_of (visitorId : string) (accountId : option string)
  : string :=
  visitorId ++ ":" ++ or_empty accountId.

(** [const cached = this.cache.get(cacheKey);
     if (cached && cached.expiresAt > Date.now()) return cached.flags;]
    as a lookup: the flags of a live entry, if there is one. *)
Definition cache_lookup (cacheKey : string) : M (option (list string)) :=
  let* cached := gets (fun s => cache s !! cacheKey) in
  match cached with
  | Some entry =>
      let* t := Date_now in
      if (expiresAt entry >? t)%Z then ret (Some (flags entry)) else ret None
  | None => ret None
  end.

(** Get segment flags for a given context; results are cached based on
    visitor/account ID. *)
Definition getSegmentFlags (context : EvaluationContext)
  : M (option (list string)) :=
  let visitorId := targetingKey context in
  let accountId := accountId context in
  if negb (truthy visitorId) then
    let* _ :=
      console_warn
        "[PendoProvider] No targetingKey (visitor ID) provided in context" in
    ret None
  else
    let visitorId := or_empty visitorId in
    (* Check cache *)
    let cacheKey := cacheKey_of visitorId accountId in
    let* hit := cache_lookup cacheKey in
    match hit with
    | Some cachedFlags => ret (Some cachedFlags)
    | None =>
        (* Fetch from Pendo API *)
        try_catch
          (let* fetched := fetchSegmentFlags visitorId accountId in
           (* Cache the result *)
           let* t := Date_now in
           let* ttl := gets (fun s => cacheTtl (options s)) in
           let* _ :=
             modify (fun s =>
               set_cache
                 (<[cacheKey := {| flags := fetched; expiresAt := t + ttl |}]>
                    (cache s)) s) in
           ret (Some fetched))
          (fun error =>
             let* _ :=
               console_error
                 "[PendoProvider] Failed to fetch segment flags:" error in
             throw error)
    end.

(** Resolve a boolean flag value. *)
Definition resolveBooleanEvaluation (flagKey : string) (defaultValue : bool)
    (context : EvaluationContext) : M (ResolutionDetails bool) :=
  try_catch
    (let* found := getSegmentFlags context in
     match found with
     | None =>
         ret {| value := defaultValue; reason := "DEFAULT";
                variant := Some "default";
                errorCode := None; errorMessage := None |}
     | Some segment =>
         let enabled := includes segment flagKey in
         ret {| value := enabled;
                reason := if enabled then "TARGETING_MATCH" else "DEFAULT";
                variant := Some (if enabled then "on" else "off");
                errorCode := None; errorMessage := None |}
     end)
    (fun error =>
       let* _ := console_error "[PendoProvider] Error evaluating flag:" error in
       ret {| value := defaultValue; reason := "ERROR";
              variant := None;
              errorCode := Some GENERAL;
              errorMessage := Some (message_of error) |}).

(** Resolve a string flag value. *)
Definition resolveStringEvaluation (flagKey : string) (defaultValue : string)
    (context : EvaluationContext) : M (ResolutionDetails string) :=
  let* boolResult := resolveBooleanEvaluation flagKey false context in
  if String.eqb (reason boolResult) "ERROR" then
    ret {| value := defaultValue; reason := "ERROR";
           variant := None;
           errorCode := errorCode boolResult;
           errorMessage := errorMessage boolResult |}
  else if String.eqb (reason boolResult) "DEFAULT" && negb (value boolResult) then
    ret {| value := defaultValue; reason := "DEFAULT";
           variant := Some "default";
           errorCode := None; errorMessage := None |}
  else
    ret {| value := if value boolResult then "on" else "off";
           reason := reason boolResult;
           variant := variant boolResult;
           errorCode := None; errorMessage := None |}.

(** Resolve a number flag value. *)
Definition resolveNumberEvaluation (flagKey : string) (defaultValue : Z)
    (context : EvaluationContext) : M (ResolutionDetails Z) :=
  let* boolResult := resolveBooleanEvaluation flagKey false context in
  if String.eqb (reason boolResult) "ERROR" then
    ret {| value := defaultValue; reason := "ERROR";
           variant := None;
           errorCode := errorCode boolResult;
           errorMessage := errorMessage boolResult |}
  else if String.eqb (reason boolResult) "DEFAULT" && negb (value boolResult) then
    ret {| value := defaultValue; reason := "DEFAULT";
           variant := Some "default";
           errorCode := None; errorMessage := None |}
  else
    ret {| value := if value boolResult then 1 else 0;
           reason := reason boolResult;
           variant := variant boolResult;
           errorCode := None; errorMessage := None |}.

(** Resolve an object flag value. *)
Definition resolveObjectEvaluation (flagKey : string) (defaultValue : JsValue)
    (context : EvaluationContext) : M (ResolutionDetails JsValue) :=
  let* boolResult := resolveBooleanEvaluation flagKey false context in
  if String.eqb (reason boolResult) "ERROR" then
    ret {| value := defaultValue; reason := "ERROR";
           variant := None;
           errorCode := errorCode boolResult;
           errorMessage := errorMessage boolResult |}
  else if String.eqb (reason boolResult) "DEFAULT" && negb (value boolResult) then
    ret {| value := defaultValue; reason := "DEFAULT";
           variant := Some "default";
           errorCode := None; errorMessage := None |}
  else
    ret {| value := JObj [("enabled", JBool (value boolResult))];
           reason := reason boolResult;
           variant := variant boolResult;
           errorCode := None; errorMessage := None |}.

End Provider.

(** ** Auxiliary definitions used in the statements and proofs *)

Definition to_url_char (c : ascii) : ascii :=
  let c1 := if Ascii.eqb c "+" then "-"%char else c in
  if Ascii.eqb c1 "/" then "_"%char else c1.

Definition of_url_char (c : ascii) : ascii :=
  let c1 := if Ascii.eqb c "-" then "+"%char else c in
  if Ascii.eqb c1 "_" then "/"%char else c1.

(** What the encoder relies on, for one 6-bit group. *)
Definition sextet_ok (n : N) : bool :=
  let c := Base64.char_of_sextet n in
  match Base64.sextet_of_char c with
  | Some m => (m =? n)%N
  | None => false
  end
  && negb (Ascii.eqb c "=")
  && negb (Ascii.eqb (to_url_char c) "=")
  && Ascii.eqb (of_url_char (to_url_char c)) c
  && url_safe_char (to_url_char c).

Definition to_url (s : string) : string :=
  replace_all "/" "_" (replace_all "+" "-" s).

Definition of_url (s : string) : string :=
  replace_all "_" "/" (replace_all "-" "+" s).

(** The padding step of [decodeJzb]. *)
Definition repad (base64 : string) : string :=
  let padding := (String.length base64 mod 4)%nat in
  if (0 <? padding)%nat then base64 ++ repeat_eq (4 - padding) else base64.

(** ** Reference instances of the builtins

    Executable stand-ins for [JSON.stringify], [JSON.parse], [pako.deflate]
    and [pako.inflate], used to evaluate the model on concrete inputs.  The
    JSON printer emits compact text and drops [undefined] properties, as
    [JSON.stringify] does; the zlib codec writes and reads a single stored
    (uncompressed) deflate block with its Adler-32 trailer, which is a valid
    zlib stream for inputs shorter than 65536 bytes. *)

Module Reference.

Definition dquote : ascii := "034"%char.
Definition backslash : ascii := "092"%char.

Fixpoint escape (s : string) : string :=
  match s with
  | EmptyString => EmptyString
  | String c rest =>
      if Ascii.eqb c dquote || Ascii.eqb c backslash
      then String backslash (String c (escape rest))
      else String c (escape rest)
  end.

Definition quote (s : string) : string :=
  String dquote (escape s ++ String dquote EmptyString).

Fixpoint join (sep : string) (parts : list string) : string :=
  match parts with
  | [] => ""
  | [p] => p
  | p :: rest => p ++ sep ++ join sep rest
  end.

(** [None] is [undefined]: the value has no JSON text. *)
Fixpoint stringify_value (v : JsValue) : option string :=
  match v with
  | JUndefined => None
  | JNull => Some "null"
  | JBool b => Some (if b then "true" else "false")
  | JNum n => Some (pretty n)
  | JStr s => Some (quote s)
  | JArr items =>
      Some ("[" ++ join ","
              (map (fun x => default "null" (stringify_value x)) items)
            ++ "]")
  | JObj props =>
      Some ("{" ++ join ","
              (flat_map
                 (fun kv =>
                    match stringify_value (snd kv) with
                    | Some t => [quote (fst kv) ++ ":" ++ t]
                    | None => []
                    end) props)
            ++ "}")
  end.

Definition JSON_stringify (payload : JsObject) : string :=
  default "" (stringify_value (JObj payload)).

(** The characters of a string literal, after the opening quote. *)
Fixpoint parse_chars (cs : list ascii) : option (string * list ascii) :=
  match cs with
  | [] => None
  | c :: rest =>
      if Ascii.eqb c dquote then Some (EmptyString, rest)
      else if Ascii.eqb c backslash then
        match rest with
        | e :: rest' =>
            match parse_chars rest' with
            | Some (s, r) => Some (String e s, r)
            | None => None
            end
        | [] => None
        end
      else
        match parse_chars rest with
        | Some (s, r) => Some (String c s, r)
        | None => None
        end
  end.

Definition digit_of (c : ascii) : option Z :=
  let n := N_of_ascii c in
  if (48 <=? n)%N && (n <=? 57)%N then Some (Z.of_N n - 48) else None.

Fixpoint parse_digits (acc : Z) (cs : list ascii) : Z * list ascii :=
  match cs with
  | c :: rest =>
      match digit_of c with
      | Some d => parse_digits (10 * acc + d) rest
      | None => (acc, cs)
      end
  | [] => (acc, cs)
  end.

Definition parse_number (cs : list ascii) : option (JsValue * list ascii) :=
  match cs with
  | "-"%char :: c :: rest =>
      match digit_of c with
      | Some d => let '(n, r) := parse_digits d rest in Some (JNum (- n), r)
      | None => None
      end
  | c :: rest =>
      match digit_of c with
      | Some d => let '(n, r) := parse_digits d rest in Some (JNum n, r)
      | None => None
      end
  | [] => None
  end.

Fixpoint parse_value (fuel : nat) (cs : list ascii)
  : option (JsValue * list ascii) :=
  match fuel with
  | O => None
  | S fuel' =>
      match cs with
      | "n"%char :: "u"%char :: "l"%char :: "l"%char :: r => Some (JNull, r)
      | "t"%char :: "r"%char :: "u"%char :: "e"%char :: r =>
          Some (JBool true, r)
      | "f"%char :: "a"%char :: "l"%char :: "s"%char :: "e"%char :: r =>
          Some (JBool false, r)
      | "["%char :: "]"%char :: r => Some (JArr [], r)
      | "["%char :: r =>
          match parse_items fuel' r with
          | Some (items, r') => Some (JArr items, r')
          | None => None
          end
      | "{"%char :: "}"%char :: r => Some (JObj [], r)
      | "{"%char :: r =>
          match parse_members fuel' r with
          | Some (props, r') => Some (JObj props, r')
          | None => None
          end
      | c :: r =>
          if Ascii.eqb c dquote then
            match parse_chars r with
            | Some (s, r') => Some (JStr s, r')
            | None => None
            end
          else parse_number cs
      | [] => None
      end
  end
with parse_items (fuel : nat) (cs : list ascii)
  : option (list JsValue * list ascii) :=
  match fuel with
  | O => None
  | S fuel' =>
      match parse_value fuel' cs with
      | Some (v, ","%char :: r) =>
          match parse_items fuel' r with
          | Some (vs, r') => Some (v :: vs, r')
          | None => None
          end
      | Some (v, "]"%char :: r) => Some ([v], r)
      | _ => None
      end
  end
with parse_members (fuel : nat) (cs : list ascii)
  : option (list (string * JsValue) * list ascii) :=
  match fuel with
  | O => None
  | S fuel' =>
      match cs with
      | q :: r =>
          if Ascii.eqb q dquote then
            match parse_chars r with
            | Some (k, ":"%char :: r1) =>
                match parse_value fuel' r1 with
                | Some (v, ","%char :: r2) =>
                    match parse_members fuel' r2 with
                    | Some (ps, r3) => Some ((k, v) :: ps, r3)
                    | None => None
                    end
                | Some (v, "}"%char :: r2) => Some ([(k, v)], r2)
                | _ => None
                end
            | _ => None
            end
          else None
      | [] => None
      end
  end.

(** [JSON.parse] on the text of an object; [None] is a [SyntaxError]. *)
Definition JSON_parse (text : string) : option JsObject :=
  let cs := list_ascii_of_string text in
  match parse_value (S (List.length cs)) cs with
  | Some (JObj props, []) => Some props
  | _ => None
  end.

Definition bytes_of_string (s : string) : list byte :=
  map byte_of_ascii (list_ascii_of_string s).

Definition string_of_bytes (bs : list byte) : string :=
  string_of_list_ascii (map ascii_of_byte bs).

(** Adler-32: the two 16-bit sums, then the 32-bit checksum. *)
Fixpoint adler_sums (a b : N) (bs : list byte) : N * N :=
  match bs with
  | [] => (a, b)
  | x :: rest =>
      let a' := ((a + Byte.to_N x) mod 65521)%N in
      adler_sums a' ((b + a') mod 65521)%N rest
  end.

Definition adler32 (bs : list byte) : N :=
  let '(a, b) := adler_sums 1 0 bs in (b * 65536 + a)%N.

Definition pako_deflate (text : string) : list byte :=
  let data := bytes_of_string text in
  let len := N.of_nat (List.length data) in
  let sum := adler32 data in
  [ x78; x01; x01;
    Base64.byte_of_N len; Base64.byte_of_N (len / 256);
    Base64.byte_of_N (255 - len mod 256);
    Base64.byte_of_N (255 - (len / 256) mod 256) ]%N
  ++ data
  ++ [ Base64.byte_of_N (sum / 16777216); Base64.byte_of_N (sum / 65536);
       Base64.byte_of_N (sum / 256); Base64.byte_of_N sum ]%N.

(** [None] is the exception [pako.inflate] raises on a corrupt stream. *)
Definition pako_inflate (stream : list byte) : option string :=
  match stream with
  | cmf :: _ :: hdr :: l0 :: l1 :: n0 :: n1 :: rest =>
      let len := (Byte.to_N l0 + 256 * Byte.to_N l1)%N in
      let nlen := (Byte.to_N n0 + 256 * Byte.to_N n1)%N in
      let data := firstn (N.to_nat len) rest in
      match skipn (N.to_nat len) rest with
      | [c3; c2; c1; c0] =>
          let sum :=
            (((Byte.to_N c3 * 256 + Byte.to_N c2) * 256 + Byte.to_N c1) * 256
             + Byte.to_N c0)%N in
          if (Byte.to_N cmf =? 120)%N && (Byte.to_N hdr =? 1)%N
             && (len + nlen =? 65535)%N
             && (N.of_nat (List.length data) =? len)%N
             && (sum =? adler32 data)%N
          then Some (string_of_bytes data)
          else None
      | _ => None
      end
  | _ => None
  end.

(** A remote service that answers every request with the same reply. *)
Definition constant_network (r : Reply) : list Request -> Request -> Reply :=
  fun _ _ => r.

Definition ok_response (found : list string) : Response :=
  {| resp_ok := true; resp_status := 200; resp_statusText := "OK";
     resp_json := Returned {| segmentFlags := Some found |} |}.

Definition status_response (code : Z) (text : string) : Response :=
  {| resp_ok := (200 <=? code)%Z && (code <=? 299)%Z;
     resp_status := code; resp_statusText := text;
     resp_json := Returned {| segmentFlags := None |} |}.

End Reference.

(** ** Vocabulary of the statements *)

(** The four shapes of result the provider builds. *)
Definition enabled_result : ResolutionDetails bool :=
  {| value := true; reason := "TARGETING_MATCH"; variant := Some "on";
     errorCode := None; errorMessage := None |}.

Definition disabled_result : ResolutionDetails bool :=
  {| value := false; reason := "DEFAULT"; variant := Some "off";
     errorCode := None; errorMessage := None |}.

Definition default_result {T} (defaultValue : T) : ResolutionDetails T :=
  {| value := defaultValue; reason := "DEFAULT"; variant := Some "default";
     errorCode := None; errorMessage := None |}.

Definition error_result {T} (defaultValue : T) (msg : string)
  : ResolutionDetails T :=
  {| value := defaultValue; reason := "ERROR"; variant := None;
     errorCode := Some GENERAL; errorMessage := Some msg |}.

Definition membership_result (found : list string) (flagKey : string)
  : ResolutionDetails bool :=
  if includes found flagKey then enabled_result else disabled_result.

(** The request [fetchSegmentFlags] sends. *)
Definition segment_request (JSON_stringify : JsObject -> string)
    (pako_deflate : string -> list byte) (o : Options)
    (visitorId : string) (accountId : option string) : Request :=
  {| req_url :=
       baseUrl o ++ "/data/segmentflag.json/" ++ apiKey o ++ "?jzb="
       ++ encodeJzb JSON_stringify pako_deflate
            [ ("visitorId", JStr visitorId);
              ("accountId", js_of_opt_string accountId);
              ("url", JStr (defaultUrl o)) ];
     req_method := "GET";
     req_headers := [("Accept", "application/json")];
     req_body := None |}.

(** The request [track] sends at time [t]. *)
Definition track_request (JSON_stringify : JsObject -> string) (o : Options)
    (event : string) (context : EvaluationContext) (properties : JsValue)
    (t : Z) : Request :=
  {| req_url := baseUrl o ++ "/data/track";
     req_method := "POST";
     req_headers :=
       [ ("Content-Type", "application/json");
         ("x-pendo-track-event-secret", or_empty (trackEventSecret o)) ];
     req_body :=
       Some (JSON_stringify
               [ ("type", JStr "track");
                 ("event", JStr event);
                 ("visitorId", js_of_opt_string (targetingKey context));
                 ("accountId", js_of_opt_string (accountId context));
                 ("timestamp", JNum t);
                 ("properties", properties) ]) |}.

(** The cache key of a context that has a visitor. *)
Definition context_key (context : EvaluationContext) : string :=
  cacheKey_of (or_empty (targetingKey context)) (accountId context).

(** The state after a record has been written to the console. *)
Definition logged (r : LogRecord) (s : State) : State :=
  set_console (console s ++ [r]) s.

(** The state after [flags] have been cached under [key] at the current
    time. *)
Definition stored (key : string) (found : list string) (s : State) : State :=
  set_cache
    (<[key := {| flags := found; expiresAt := now s + cacheTtl (options s) |}]>
       (cache s)) s.

(** The state in which an awaited [fetch] of [req] resumes. *)
Definition awaited (network : list Request -> Request -> Reply)
    (req : Request) (s : State) : State :=
  set_now (now s + Z.of_N (elapsed (network (requests s) req)))
    (set_requests (requests s ++ [req]) s).

(** An entry that a reader at time [t] may still use. *)
Definition live (t : Z) (entry : CacheEntry) : Prop := t < expiresAt entry.

(** No usable entry under [key]. *)
Definition absent (key : string) (s : State) : Prop :=
  cache s !! key = None
  \/ exists entry, cache s !! key = Some entry /\ expiresAt entry <= now s.

Definition warn_no_visitor : LogRecord :=
  Warn "[PendoProvider] No targetingKey (visitor ID) provided in context".

Definition contains (needle hay : string) : bool :=
  match String.index 0 needle hay with
  | Some _ => true
  | None => false
  end.

(** ** Scenarios of the test suite *)

Module Scenario.

Definition test_options : PendoProviderOptions :=
  {| opt_apiKey := "test-api-key";
     opt_defaultUrl := "https://example.com";
     opt_baseUrl := None;
     opt_cacheTtl := None;
     opt_trackEventSecret := None |}.

Definition track_options : PendoProviderOptions :=
  {| opt_apiKey := "test-api-key";
     opt_defaultUrl := "https://example.com";
     opt_baseUrl := None;
     opt_cacheTtl := None;
     opt_trackEventSecret := Some "test-secret" |}.

(** A provider constructed at time 1000. *)
Definition provider : State := new_PendoProvider test_options 1000.

Definition track_provider : State := new_PendoProvider track_options 1000.

Definition user123 : EvaluationContext :=
  {| targetingKey := Some "user-123"; accountId := None |}.

Definition user123_account456 : EvaluationContext :=
  {| targetingKey := Some "user-123"; accountId := Some "account-456" |}.

Definition anonymous : EvaluationContext :=
  {| targetingKey := None; accountId := None |}.

(** [mockFetch.mockResolvedValue({ ok: true, status: 200,
      json: async () => ({ segmentFlags: [...] }) })], settling after 5 ms. *)
Definition serving (found : list string) : list Request -> Request -> Reply :=
  Reference.constant_network
    {| settled := Returned (Reference.ok_response found); elapsed := 5 |}.

(** A service that answers with a bare status. *)
Definition answering (code : Z) (text : string)
  : list Request -> Request -> Reply :=
  Reference.constant_network
    {| settled := Returned (Reference.status_response code text);
       elapsed := 5 |}.

(** [mockFetch.mockRejectedValue(new Error("Network error"))]. *)
Definition failing : list Request -> Request -> Reply :=
  Reference.constant_network
    {| settled := Threw (ErrorObj "Network error"); elapsed := 5 |}.

(** Two contexts whose ids differ but whose cache keys coincide. *)
Definition visitor_ab_account_c : EvaluationContext :=
  {| targetingKey := Some "a:b"; accountId := Some "c" |}.

Definition visitor_a_account_bc : EvaluationContext :=
  {| targetingKey := Some "a"; accountId := Some "b:c" |}.

End Scenario.

(** The rule by which the typed resolvers are derived from the boolean
    result [b], in the words of the specification: an ERROR is propagated
    with the default value; a DEFAULT with value false gives the default
    value with variant "default"; anything else is translated to the
    type's [on] or [off] representation, reason and variant carried over. *)
Definition derived_result {T} (on off defaultValue : T)
    (b : ResolutionDetails bool) : ResolutionDetails T :=
  if bool_decide (reason b = "ERROR") then
    {| value := defaultValue; reason := "ERROR"; variant := None;
       errorCode := errorCode b; errorMessage := errorMessage b |}
  else if bool_decide (reason b = "DEFAULT" /\ value b = false) then
    default_result defaultValue
  else
    {| value := if value b then on else off;
       reason := reason b; variant := variant b;
       errorCode := None; errorMessage := None |}.

Definition object_on : JsValue := JObj [("enabled", JBool true)].
Definition object_off : JsValue := JObj [("enabled", JBool false)].

Definition warn_no_secret : LogRecord :=
  Warn "[PendoProvider] trackEventSecret is required to track events".

Definition warn_track_no_visitor : LogRecord :=
  Warn "[PendoProvider] targetingKey (visitorId) is required to track events".

(** ** Sequences of calls on one provider

    A client drives a provider through its public methods, one call after
    the other, while time goes by between the calls.  [exec] is the state
    one call leaves; [run] folds it over a sequence of calls. *)

Inductive Call : Type :=
  | CallInitialize
  | CallOnClose
  | CallClearCache
  | CallTrack (trackingEventName : string) (context : EvaluationContext)
      (trackingEventDetails : JsValue)
  | CallResolveBoolean (flagKey : string) (defaultValue : bool)
      (context : EvaluationContext)
  | CallResolveString (flagKey : string) (defaultValue : string)
      (context : EvaluationContext)
  | CallResolveNumber (flagKey : string) (defaultValue : Z)
      (context : EvaluationContext)
  | CallResolveObject (flagKey : string) (defaultValue : JsValue)
      (context : EvaluationContext)
  | Elapse (ms : N).

Definition exec (JSON_stringify : JsObject -> string)
    (pako_deflate : string -> list byte)
    (network : list Request -> Request -> Reply)
    (c : Call) (s : State) : State :=
  match c with
  | CallInitialize => snd (initialize s)
  | CallOnClose => snd (onClose s)
  | CallClearCache => snd (clearCache s)
  | CallTrack name context details =>
      snd (track JSON_stringify network name context details s)
  | CallResolveBoolean flagKey defaultValue context =>
      snd (resolveBooleanEvaluation JSON_stringify pako_deflate network
             flagKey defaultValue context s)
  | CallResolveString flagKey defaultValue context =>
      snd (resolveStringEvaluation JSON_stringify pako_deflate network
             flagKey defaultValue context s)
  | CallResolveNumber flagKey defaultValue context =>
      snd (resolveNumberEvaluation JSON_stringify pako_deflate network
             flagKey defaultValue context s)
  | CallResolveObject flagKey defaultValue context =>
      snd (resolveObjectEvaluation JSON_stringify pako_deflate network
             flagKey defaultValue context s)
  | Elapse ms => set_now (now s + Z.of_N ms) s
  end.

Definition run (JSON_stringify : JsObject -> string)
    (pako_deflate : string -> list byte)
    (network : list Request -> Request -> Reply)
    (calls : list Call) (s : State) : State :=
  fold_left (fun s c => exec JSON_stringify pako_deflate network c s) calls s.


(** Every entry has expired. *)
Definition all_expired (s : State) : Prop :=
  forall key entry, cache s !! key = Some entry -> expiresAt entry <= now s.

(** What a resolution for [context] may change between [s] and [s']:
    nothing in the options or the status; in the cache only the entry of
    the context's key; the clock does not go back; at most one request is
    added (the segment request of the context) and console records are only
    appended. *)
Definition resolution_frame (JSON_stringify : JsObject -> string)
    (pako_deflate : string -> list byte)
    (context : EvaluationContext) (s s' : State) : Prop :=
  options s' = options s
  /\ status s' = status s
  /\ now s <= now s'
  /\ (forall key, key <> context_key context -> cache s' !! key = cache s !! key)
  /\ (requests s' = requests s
      \/ requests s'
         = (requests s
            ++ [segment_request JSON_stringify pako_deflate (options s)
                  (or_empty (targetingKey context)) (accountId context)])%list)
  /\ (exists records, console s' = (console s ++ records)%list).

(** ** [PendoTelemetryHook.ts] of the server provider *)

Module TelemetryHook.

(** The options the hook keeps: the constructor fills in [eventName] and
    [baseUrl]; [flagFilter] may be absent. *)
Record PendoTelemetryHookOptions : Type := mkHookOptions {
  opt_eventName : option string;
  opt_flagFilter : option (string -> bool);
  opt_trackEventSecret : string;
  opt_baseUrl : option string
}.

Record HookOptions : Type := mkOptions {
  eventName : string;
  flagFilter : option (string -> bool);
  trackEventSecret : string;
  baseUrl : string
}.

Definition new_PendoTelemetryHook (o : PendoTelemetryHookOptions)
  : HookOptions :=
  {| eventName := default "flag_evaluated" (opt_eventName o);
     flagFilter := opt_flagFilter o;
     trackEventSecret := opt_trackEventSecret o;
     baseUrl := default "https://data.pendo.io" (opt_baseUrl o) |}.

(** The members of [HookContext] and [EvaluationDetails] the hook reads. *)
Record HookContext : Type := mkHookContext {
  flagKey : string;
  context : EvaluationContext;
  providerName : string
}.

Record EvaluationDetails : Type := mkDetails {
  value : JsValue;
  variant : option string;
  reason : option string
}.

(** [x || fallback] on a [string | undefined]. *)
Definition or_else (x : option string) (fallback : string) : string :=
  if truthy x then or_empty x else fallback.

Section Hook.

(** [JSON.stringify] on any value, and the remote service. *)
Variable JSON_stringify_value : JsValue -> string.
Variable network : list Request -> Request -> Reply.

(** Convert a flag value to a string for tracking. *)
Definition stringifyValue (v : JsValue) : string :=
  match v with
  | JNull => "null"
  | JArr _ | JObj _ => JSON_stringify_value v
  | JBool b => if b then "true" else "false"
  | JNum n => pretty n
  | JStr s => s
  | JUndefined => "undefined"
  end.

(** The [properties] object of an evaluation. *)
Definition properties_of (hookContext : HookContext)
    (evaluationDetails : EvaluationDetails) : JsObject :=
  [ ("flag_key", JStr (flagKey hookContext));
    ("flag_variant", JStr (or_else (variant evaluationDetails) "unknown"));
    ("flag_reason", JStr (or_else (reason evaluationDetails) "UNKNOWN"));
    ("flag_value", JStr (stringifyValue (value evaluationDetails)));
    ("provider_name", JStr (providerName hookContext)) ].

(** Called after a flag is successfully evaluated. *)
Definition after (o : HookOptions) (hookContext : HookContext)
    (evaluationDetails : EvaluationDetails) : M unit :=
  let flagKey := flagKey hookContext in
  (* Check if this flag should be tracked *)
  if match flagFilter o with
     | Some filter => negb (filter flagKey)
     | None => false
     end
  then ret tt
  else
    let visitorId := targetingKey (context hookContext) in
    if negb (truthy visitorId) then
      (* Can't track without a visitor ID *)
      ret tt
    else
      let accountId := accountId (context hookContext) in
      let properties := properties_of hookContext evaluationDetails in
      let* timestamp := Date_now in
      let payload :=
        [ ("type", JStr "track");
          ("event", JStr (eventName o));
          ("visitorId", js_of_opt_string visitorId);
          ("accountId", js_of_opt_string accountId);
          ("timestamp", JNum timestamp);
          ("properties", JObj properties) ] in
      (* Fire-and-forget: don't await *)
      fetch_detached network
        {| req_url := baseUrl o ++ "/data/track";
           req_method := "POST";
           req_headers :=
             [ ("Content-Type", "application/json");
               ("x-pendo-track-event-secret", trackEventSecret o) ];
           req_body := Some (JSON_stringify_value (JObj payload)) |}
        (fun error =>
           console_error
             "[PendoTelemetryHook] Failed to track flag evaluation:" error).

End Hook.

(** Whether [after] goes on to send the event. *)
Definition tracks (o : HookOptions) (hookContext : HookContext) : bool :=
  match flagFilter o with
  | Some filter => filter (flagKey hookContext)
  | None => true
  end
  && truthy (targetingKey (context hookContext)).

End TelemetryHook.

(** Scenarios of the hook's test suite. *)
Module HookScenario.

Definition JSON_stringify_value (v : JsValue) : string :=
  default "" (Reference.stringify_value v).

Definition hook : TelemetryHook.HookOptions :=
  TelemetryHook.new_PendoTelemetryHook
    {| TelemetryHook.opt_eventName := None;
       TelemetryHook.opt_flagFilter := None;
       TelemetryHook.opt_trackEventSecret := "test-secret";
       TelemetryHook.opt_baseUrl := None |}.


Definition hookContext : TelemetryHook.HookContext :=
  {| TelemetryHook.flagKey := "test-flag";
     TelemetryHook.context := Scenario.user123;
     TelemetryHook.providerName := "pendo-server-provider" |}.

Definition evaluationDetails : TelemetryHook.EvaluationDetails :=
  {| TelemetryHook.value := JBool true;
     TelemetryHook.variant := Some "on";
     TelemetryHook.reason := Some "TARGETING_MATCH" |}.

End HookScenario.

(** ** [PendoProvider.ts] of the web provider *)

(** [String(value)]: a string is itself, an array is its elements joined
    by commas ([null] and [undefined] elements giving nothing), any other
    object is ["[object Object]"]. *)
Fixpoint join_comma (parts : list string) : string :=
  match parts with
  | [] => ""
  | [p] => p
  | p :: rest => p ++ "," ++ join_comma rest
  end.

Fixpoint js_String (v : JsValue) : string :=
  match v with
  | JUndefined => "undefined"
  | JNull => "null"
  | JBool b => if b then "true" else "false"
  | JNum n => pretty n
  | JStr s => s
  | JArr items =>
      join_comma
        (map (fun x =>
                match x with
                | JUndefined | JNull => ""
                | _ => js_String x
                end) items)
  | JObj _ => "[object Object]"
  end.

Module Web.

(** [window.pendo] at one moment: the [segmentFlags] array if the agent
    has set it, what [isReady()] returns if the function is there, and
    whether [track] is there. *)
Record Pendo : Type := mkPendo {
  segmentFlags : option (list string);
  isReady : option bool;
  has_track : bool
}.

(** The global [window]: missing (no browser), or with or without
    [pendo]. *)
Inductive Window : Type :=
  | NoWindow
  | WindowWith (pendo : option Pendo).

(** The browser as the provider acts on it: the window, the calls made to
    [window.pendo.track] (oldest first) and the console. *)
Record Env : Type := mkEnv {
  window : Window;
  tracked : list (string * list (string * string));
  console : list LogRecord
}.

(** The constructor: [{ readyTimeout: 5000, ...options }]. *)
Record PendoProviderOptions : Type := mkProviderOptions {
  opt_apiKey : option string;
  opt_readyTimeout : option Z
}.

Record Options : Type := mkOptions {
  apiKey : option string;
  readyTimeout : option Z
}.

Definition new_options (o : PendoProviderOptions) : Options :=
  {| apiKey := opt_apiKey o;
     readyTimeout := Some (default 5000 (opt_readyTimeout o)) |}.

(** Get the segment flags array from Pendo. *)
Definition getSegmentFlags (w : Window) : option (list string) :=
  match w with
  | NoWindow => None
  | WindowWith None => None
  | WindowWith (Some p) => segmentFlags p
  end.

(** Resolve a boolean flag value. *)
Definition resolveBooleanEvaluation (flagKey : string) (defaultValue : bool)
    (_context : EvaluationContext) (w : Window) : ResolutionDetails bool :=
  match getSegmentFlags w with
  | None =>
      {| value := defaultValue; reason := "DEFAULT";
         variant := Some "default";
         errorCode := None; errorMessage := None |}
  | Some found =>
      let enabled := includes found flagKey in
      {| value := enabled;
         reason := if enabled then "TARGETING_MATCH" else "DEFAULT";
         variant := Some (if enabled then "on" else "off");
         errorCode := None; errorMessage := None |}
  end.

(** Resolve a string flag value. *)
Definition resolveStringEvaluation (flagKey : string) (defaultValue : string)
    (context : EvaluationContext) (w : Window) : ResolutionDetails string :=
  let boolResult := resolveBooleanEvaluation flagKey false context w in
  if String.eqb (reason boolResult) "DEFAULT" && negb (value boolResult) then
    {| value := defaultValue; reason := "DEFAULT";
       variant := Some "default";
       errorCode := None; errorMessage := None |}
  else
    {| value := if value boolResult then "on" else "off";
       reason := reason boolResult;
       variant := variant boolResult;
       errorCode := None; errorMessage := None |}.

(** Resolve a number flag value. *)
Definition resolveNumberEvaluation (flagKey : string) (defaultValue : Z)
    (context : EvaluationContext) (w : Window) : ResolutionDetails Z :=
  let boolResult := resolveBooleanEvaluation flagKey false context w in
  if String.eqb (reason boolResult) "DEFAULT" && negb (value boolResult) then
    {| value := defaultValue; reason := "DEFAULT";
       variant := Some "default";
       errorCode := None; errorMessage := None |}
  else
    {| value := if value boolResult then 1 else 0;
       reason := reason boolResult;
       variant := variant boolResult;
       errorCode := None; errorMessage := None |}.

(** Resolve an object flag value. *)
Definition resolveObjectEvaluation (flagKey : string) (defaultValue : JsValue)
    (context : EvaluationContext) (w : Window) : ResolutionDetails JsValue :=
  let boolResult := resolveBooleanEvaluation flagKey false context w in
  if String.eqb (reason boolResult) "DEFAULT" && negb (value boolResult) then
    {| value := defaultValue; reason := "DEFAULT";
       variant := Some "default";
       errorCode := None; errorMessage := None |}
  else
    {| value := JObj [("enabled", JBool (value boolResult))];
       reason := reason boolResult;
       variant := variant boolResult;
       errorCode := None; errorMessage := None |}.

(** [typeof window !== "undefined" && window.pendo?.track]. *)
Definition can_track (w : Window) : bool :=
  match w with
  | WindowWith (Some p) => has_track p
  | _ => false
  end.

(** [properties[key] = text] on an object given by its properties in
    order: an existing key keeps its place. *)
Fixpoint set_property (key text : string) (properties : list (string * string))
  : list (string * string) :=
  match properties with
  | [] => [(key, text)]
  | (k, x) :: rest =>
      if String.eqb k key then (k, text) :: rest
      else (k, x) :: set_property key text rest
  end.

(** The loop over [Object.entries(trackingEventDetails)]. *)
Definition convert (entries : JsObject) : list (string * string) :=
  fold_left
    (fun properties kv =>
       match snd kv with
       | JUndefined | JNull => properties
       | v => set_property (fst kv) (js_String v) properties
       end)
    entries [].

(** Track a custom event in Pendo; [trackingEventDetails] is given by its
    entries. *)
Definition track (trackingEventName : string) (_context : EvaluationContext)
    (trackingEventDetails : JsObject) (env : Env) : Env :=
  if negb (can_track (window env)) then
    {| window := window env;
       tracked := tracked env;
       console :=
         console env
         ++ [Warn "[PendoProvider] Pendo agent not available for tracking"] |}
  else
    (* Fire-and-forget: delegate to Pendo agent *)
    {| window := window env;
       tracked := tracked env ++ [(trackingEventName, convert trackingEventDetails)];
       console := console env |}.

(** [window.pendo.isReady?.() || window.pendo.segmentFlags !== undefined],
    for a window that has [pendo]. *)
Definition pendo_ready (w : Window) : bool :=
  match w with
  | WindowWith (Some p) =>
      match isReady p with
      | Some b => b
      | None => false
      end
      || match segmentFlags p with
         | Some _ => true
         | None => false
         end
  | _ => false
  end.

(** What one run of [check] sees: the time [Date.now()] gives and the
    window. *)
Record Observation : Type := mkObservation {
  time : Z;
  seen : Window
}.

(** How the polling of [waitForPendo] ends: [resolve()] has been called
    after [runs] runs of [check], with or without the timeout warning; or
    the runs allowed were not enough. *)
Inductive Polling : Type :=
  | Resolved (runs : nat) (warned : bool)
  | Pending.

(** [check], from its run number [k] on, allowed [fuel] runs: it resolves
    when Pendo is ready, resolves with a warning when the timeout has
    passed, and otherwise schedules its next run with [setTimeout]. *)
Fixpoint check (fuel : nat) (observe : nat -> Observation)
    (startTime timeout : Z) (k : nat) : Polling :=
  match fuel with
  | O => Pending
  | S fuel' =>
      let o := observe k in
      if pendo_ready (seen o) then Resolved (S k) false
      else if (time o - startTime >? timeout)%Z then Resolved (S k) true
      else check fuel' observe startTime timeout (S k)
  end.

(** The polling [waitForPendo] starts: [timeout] is
    [this.options.readyTimeout ?? 5000].  (The [pendo:ready] listener
    registered beside it also only calls [resolve()], so the promise can
    settle earlier than the polling ends, never later and never by
    rejection.) *)
Definition waitForPendo (o : Options) (fuel : nat)
    (observe : nat -> Observation) (startTime : Z) : Polling :=
  check fuel observe startTime (default 5000 (readyTimeout o)) 0.

(** Whether a flag counts as enabled in a window. *)
Definition enabled (flagKey : string) (w : Window) : bool :=
  match getSegmentFlags w with
  | Some found => includes found flagKey
  | None => false
  end.

End Web.

(** ** [PendoTelemetryHook.ts] of the web provider *)

Module WebHook.

Record HookOptions : Type := mkOptions {
  eventName : string;
  flagFilter : option (string -> bool)
}.

(** The constructor: [{ eventName: "flag_evaluated", ...options }]. *)
Definition new_PendoTelemetryHook (name : option string)
    (filter : option (string -> bool)) : HookOptions :=
  {| eventName := default "flag_evaluated" name; flagFilter := filter |}.

Section Hook.

Variable JSON_stringify_value : JsValue -> string.

(** Convert a flag value to a string for tracking. *)
Definition stringifyValue (v : JsValue) : string :=
  match v with
  | JNull => "null"
  | JArr _ | JObj _ => JSON_stringify_value v
  | _ => js_String v
  end.

(** Called after a flag is successfully evaluated. *)
Definition after (o : HookOptions) (hookContext : TelemetryHook.HookContext)
    (evaluationDetails : TelemetryHook.EvaluationDetails) (env : Web.Env)
  : Web.Env :=
  let flagKey := TelemetryHook.flagKey hookContext in
  (* Check if this flag should be tracked *)
  if match flagFilter o with
     | Some filter => negb (filter flagKey)
     | None => false
     end
  then env
  else if negb (Web.can_track (Web.window env)) then
    (* Check if Pendo agent is available *)
    env
  else
    let properties :=
      [ ("flag_key", flagKey);
        ("flag_variant",
         TelemetryHook.or_else (TelemetryHook.variant evaluationDetails)
           "unknown");
        ("flag_reason",
         TelemetryHook.or_else (TelemetryHook.reason evaluationDetails)
           "UNKNOWN");
        ("flag_value",
         stringifyValue (TelemetryHook.value evaluationDetails));
        ("provider_name", TelemetryHook.providerName hookContext) ] in
    (* Fire-and-forget: delegate to Pendo agent *)
    {| Web.window := Web.window env;
       Web.tracked := Web.tracked env ++ [(eventName o, properties)];
       Web.console := Web.console env |}.

End Hook.

End WebHook.


(** Scenarios of the web provider's test suite. *)
Module WebScenario.

(** [window.pendo = { segmentFlags: [...], track: mockTrack }]. *)
Definition browser (found : list string) : Web.Env :=
  {| Web.window :=
       Web.WindowWith
         (Some {| Web.segmentFlags := Some found;
                  Web.isReady := None;
                  Web.has_track := true |});
     Web.tracked := [];
     Web.console := [] |}.

(** A page on which the agent never shows up, polled every 100 ms from
    time 0. *)
Definition never_ready (k : nat) : Web.Observation :=
  {| Web.time := 100 * Z.of_nat k; Web.seen := Web.WindowWith None |}.

End WebScenario.

(** * Properties *)

Example base64_hello :
  Base64.encode [x68; x65; x6c; x6c; x6f] = "aGVsbG8=".
Proof. reflexivity. Qed.

Example base64_hello_back :
  Base64.decode "aGVsbG8=" = [x68; x65; x6c; x6c; x6f].
Proof. reflexivity. Qed.

Example strip_padding_ex : strip_padding "a=b==" = "a=b".
Proof. reflexivity. Qed.

(** ** Base64 and the URL-safe transformation *)

Lemma sextet_ok_all (n : N) : (n < 64)%N -> sextet_ok n = true.
Proof.
  intros Hn.
  assert (Hall : forallb sextet_ok (map N.of_nat (seq 0 64)) = true)
    by (vm_compute; reflexivity).
  rewrite forallb_forall in Hall. apply Hall.
  apply in_map_iff. exists (N.to_nat n). split; [lia|].
  apply in_seq. lia.
Qed.

Section SextetFacts.
Variable n : N.
Hypothesis Hn : (n < 64)%N.

Lemma sextet_of_char_of_sextet :
  Base64.sextet_of_char (Base64.char_of_sextet n) = Some n.
Proof.
  pose proof (sextet_ok_all n Hn) as H. unfold sextet_ok in H.
  repeat (apply andb_prop in H; destruct H as [H ?]).
  destruct (Base64.sextet_of_char _); [|discriminate].
  apply N.eqb_eq in H. congruence.
Qed.

Lemma char_of_sextet_not_pad :
  Ascii.eqb (Base64.char_of_sextet n) "=" = false.
Proof.
  pose proof (sextet_ok_all n Hn) as H. unfold sextet_ok in H.
  repeat (apply andb_prop in H; destruct H as [H ?]).
  now apply negb_true_iff.
Qed.

Lemma url_char_not_pad :
  Ascii.eqb (to_url_char (Base64.char_of_sextet n)) "=" = false.
Proof.
  pose proof (sextet_ok_all n Hn) as H. unfold sextet_ok in H.
  repeat (apply andb_prop in H; destruct H as [H ?]).
  now apply negb_true_iff.
Qed.

Lemma of_url_to_url_char :
  of_url_char (to_url_char (Base64.char_of_sextet n)) = Base64.char_of_sextet n.
Proof.
  pose proof (sextet_ok_all n Hn) as H. unfold sextet_ok in H.
  repeat (apply andb_prop in H; destruct H as [H ?]).
  now apply Ascii.eqb_eq.
Qed.

Lemma url_char_safe :
  url_safe_char (to_url_char (Base64.char_of_sextet n)) = true.
Proof.
  pose proof (sextet_ok_all n Hn) as H. unfold sextet_ok in H.
  repeat (apply andb_prop in H; destruct H as [H ?]).
  assumption.
Qed.
End SextetFacts.

Ltac euclid := zify; Z.to_euclidean_division_equations; lia.

(** Lists three elements at a time, as [Base64.encode] consumes them. *)
Lemma list_ind3 {A} (P : list A -> Prop) :
  P [] ->
  (forall a, P [a]) ->
  (forall a b, P [a; b]) ->
  (forall a b c l, P l -> P (a :: b :: c :: l)) ->
  forall l, P l.
Proof.
  intros H0 H1 H2 H3 l.
  enough (H : P l /\ (forall a, P (a :: l)) /\ (forall a b, P (a :: b :: l)))
    by apply H.
  induction l as [|x l [IH0 [IH1 IH2]]].
  - repeat split; auto.
  - repeat split; auto.
Qed.

Lemma to_url_cons c s : to_url (String c s) = String (to_url_char c) (to_url s).
Proof. reflexivity. Qed.

Lemma of_url_cons c s : of_url (String c s) = String (of_url_char c) (of_url s).
Proof. reflexivity. Qed.

Lemma strip_padding_cons x r :
  Ascii.eqb x "=" = false ->
  strip_padding (String x r) = String x (strip_padding r).
Proof. intros H. simpl. rewrite H. now destruct (strip_padding r). Qed.

Lemma repad_cons4 c1 c2 c3 c4 s :
  repad (String c1 (String c2 (String c3 (String c4 s))))
  = String c1 (String c2 (String c3 (String c4 (repad s)))).
Proof.
  unfold repad. cbn [String.length].
  replace (S (S (S (S (String.length s)))) mod 4)%nat
    with (String.length s mod 4)%nat.
  - now destruct (0 <? String.length s mod 4)%nat.
  - change (S (S (S (S (String.length s))))) with (4 + String.length s)%nat.
    rewrite <- (Nat.Div0.add_mod_idemp_l 4 _ 4). reflexivity.
Qed.

Lemma byte_of_N_eq n a : (n mod 256 = Byte.to_N a)%N -> Base64.byte_of_N n = a.
Proof. intros H. unfold Base64.byte_of_N. now rewrite H, Byte.of_to_N. Qed.

Ltac byte_bounds :=
  repeat match goal with
         | a : byte |- _ =>
             lazymatch goal with
             | _ : (Byte.to_N a <= 255)%N |- _ => fail
             | _ => pose proof (Byte.to_N_bounded a)
             end
         end.

Ltac byte_arith := intros; byte_bounds; euclid.

Lemma sextet1_lt a : (Byte.to_N a / 4 < 64)%N.
Proof. byte_arith. Qed.

Lemma sextet2_lt a b : (Byte.to_N a mod 4 * 16 + Byte.to_N b / 16 < 64)%N.
Proof. byte_arith. Qed.

Lemma sextet2_tail_lt a : (Byte.to_N a mod 4 * 16 < 64)%N.
Proof. byte_arith. Qed.

Lemma sextet3_lt b c : (Byte.to_N b mod 16 * 4 + Byte.to_N c / 64 < 64)%N.
Proof. byte_arith. Qed.

Lemma sextet3_tail_lt b : (Byte.to_N b mod 16 * 4 < 64)%N.
Proof. byte_arith. Qed.

Lemma sextet4_lt c : (Byte.to_N c mod 64 < 64)%N.
Proof. byte_arith. Qed.

Lemma pack_byte1 a b :
  Base64.byte_of_N
    (Byte.to_N a / 4 * 4 + (Byte.to_N a mod 4 * 16 + Byte.to_N b / 16) / 16) = a.
Proof. apply byte_of_N_eq. byte_arith. Qed.

Lemma pack_byte1_tail a :
  Base64.byte_of_N (Byte.to_N a / 4 * 4 + (Byte.to_N a mod 4 * 16) / 16) = a.
Proof. apply byte_of_N_eq. byte_arith. Qed.

Lemma pack_byte2 a b c :
  Base64.byte_of_N
    ((Byte.to_N a mod 4 * 16 + Byte.to_N b / 16) mod 16 * 16
     + (Byte.to_N b mod 16 * 4 + Byte.to_N c / 64) / 4) = b.
Proof. apply byte_of_N_eq. byte_arith. Qed.

Lemma pack_byte2_tail a b :
  Base64.byte_of_N
    ((Byte.to_N a mod 4 * 16 + Byte.to_N b / 16) mod 16 * 16
     + (Byte.to_N b mod 16 * 4) / 4) = b.
Proof. apply byte_of_N_eq. byte_arith. Qed.

Lemma pack_byte3 b c :
  Base64.byte_of_N
    ((Byte.to_N b mod 16 * 4 + Byte.to_N c / 64) mod 4 * 64
     + Byte.to_N c mod 64) = c.
Proof. apply byte_of_N_eq. byte_arith. Qed.

Create HintDb sextet.

#[local] Hint Resolve sextet1_lt sextet2_lt sextet2_tail_lt sextet3_lt
  sextet3_tail_lt sextet4_lt : sextet.

(** One character of the data part goes through each stage unchanged. *)
Lemma sextets_cons n s :
  (n < 64)%N ->
  Base64.sextets (String (Base64.char_of_sextet n) s) = n :: Base64.sextets s.
Proof.
  intros Hn. cbn [Base64.sextets].
  now rewrite char_of_sextet_not_pad, sextet_of_char_of_sextet.
Qed.

Lemma strip_to_url_cons n s :
  (n < 64)%N ->
  strip_padding (to_url (String (Base64.char_of_sextet n) s))
  = String (to_url_char (Base64.char_of_sextet n)) (strip_padding (to_url s)).
Proof.
  intros Hn. rewrite to_url_cons. apply strip_padding_cons.
  now apply url_char_not_pad.
Qed.

Lemma of_url_to_url_cons n s :
  (n < 64)%N ->
  of_url (String (to_url_char (Base64.char_of_sextet n)) s)
  = String (Base64.char_of_sextet n) (of_url s).
Proof. intros Hn. rewrite of_url_cons. now rewrite of_url_to_url_char. Qed.

(** [Buffer.from(buf.toString("base64"), "base64")] gives the bytes back. *)
Lemma decode_encode (bs : list byte) : Base64.decode (Base64.encode bs) = bs.
Proof.
  unfold Base64.decode.
  induction bs as [|a|a b|a b c rest IH] using list_ind3.
  - reflexivity.
  - cbn [Base64.encode].
    rewrite !sextets_cons by auto with sextet.
    cbn. now rewrite pack_byte1_tail.
  - cbn [Base64.encode].
    rewrite !sextets_cons by auto with sextet.
    cbn. now rewrite pack_byte1, pack_byte2_tail.
  - cbn [Base64.encode].
    rewrite !sextets_cons by auto with sextet.
    cbn [Base64.pack]. now rewrite pack_byte1, pack_byte2, pack_byte3, IH.
Qed.

(** Stripping the padding and remapping two characters loses nothing:
    the decoder's first steps rebuild the standard Base64 text. *)
Lemma repad_of_url_strip_to_url (bs : list byte) :
  repad (of_url (strip_padding (to_url (Base64.encode bs)))) = Base64.encode bs.
Proof.
  induction bs as [|a|a b|a b c rest IH] using list_ind3.
  - reflexivity.
  - cbn [Base64.encode].
    rewrite !strip_to_url_cons, !of_url_to_url_cons by auto with sextet.
    reflexivity.
  - cbn [Base64.encode].
    rewrite !strip_to_url_cons, !of_url_to_url_cons by auto with sextet.
    reflexivity.
  - cbn [Base64.encode].
    rewrite !strip_to_url_cons, !of_url_to_url_cons by auto with sextet.
    now rewrite repad_cons4, IH.
Qed.

Lemma url_safe_encode (bs : list byte) :
  all_chars url_safe_char (strip_padding (to_url (Base64.encode bs))) = true.
Proof.
  induction bs as [|a|a b|a b c rest IH] using list_ind3.
  - reflexivity.
  - cbn [Base64.encode].
    rewrite !strip_to_url_cons by auto with sextet.
    cbn. now rewrite !url_char_safe by auto with sextet.
  - cbn [Base64.encode].
    rewrite !strip_to_url_cons by auto with sextet.
    cbn. now rewrite !url_char_safe by auto with sextet.
  - cbn [Base64.encode].
    rewrite !strip_to_url_cons by auto with sextet.
    cbn [all_chars]. now rewrite !url_char_safe, IH by auto with sextet.
Qed.

Lemma encode_nonempty (bs : list byte) :
  bs <> [] -> strip_padding (to_url (Base64.encode bs)) <> "".
Proof.
  destruct bs as [|a [|b [|c rest]]]; [congruence| | |]; intros _;
    cbn [Base64.encode]; rewrite strip_to_url_cons by auto with sextet;
    discriminate.
Qed.

Example reference_stringify :
  Reference.JSON_stringify
    [("visitorId", JStr "user-123"); ("accountId", JUndefined);
     ("n", JArr [JNum 1; JNull; JBool true])]
  = "{" ++ Reference.quote "visitorId" ++ ":" ++ Reference.quote "user-123"
     ++ "," ++ Reference.quote "n" ++ ":[1,null,true]}".
Proof. vm_compute. reflexivity. Qed.

Example reference_parse :
  Reference.JSON_parse
    (Reference.JSON_stringify
       [("visitorId", JStr "user-123");
        ("n", JArr [JNum 1; JNull; JObj [("k", JNum (-7))]])])
  = Some [("visitorId", JStr "user-123");
          ("n", JArr [JNum 1; JNull; JObj [("k", JNum (-7))]])].
Proof. vm_compute. reflexivity. Qed.

Example reference_zlib :
  Reference.pako_inflate (Reference.pako_deflate "{}") = Some "{}".
Proof. vm_compute. reflexivity. Qed.

Example reference_zlib_bytes :
  Reference.pako_deflate "a"
  = [x78; x01; x01; x01; x00; xfe; xff; x61; x00; x62; x00; x62].
Proof. vm_compute. reflexivity. Qed.

(** ** The payload encoder *)

Lemma decodeJzb_unfold JSON_parse pako_inflate encoded :
  decodeJzb JSON_parse pako_inflate encoded
  = match pako_inflate (Base64.decode (repad (of_url encoded))) with
    | Some jsonString => JSON_parse jsonString
    | None => None
    end.
Proof. reflexivity. Qed.

Lemma encodeJzb_unfold JSON_stringify pako_deflate payload :
  encodeJzb JSON_stringify pako_deflate payload
  = strip_padding (to_url (Base64.encode (pako_deflate (JSON_stringify payload)))).
Proof. reflexivity. Qed.

(** Whatever the builtins produce, the token carries no character outside
    the URL-safe alphabet. *)
Lemma encodeJzb_chars JSON_stringify pako_deflate payload :
  all_chars url_safe_char (encodeJzb JSON_stringify pako_deflate payload) = true.
Proof. rewrite encodeJzb_unfold. apply url_safe_encode. Qed.

(** C3.  Let [P] be a payload that [JSON.parse] reads back from its
    [JSON.stringify] text, and let pako inflate what it deflated for that
    text (a zlib stream is never empty).  Then [encodeJzb P] matches
    [^[A-Za-z0-9_-]+$], and the decoder of the test suite (restore the
    Base64 alphabet and padding, inflate, parse) returns [P] exactly. *)
Theorem encodeJzb_roundtrip
    (JSON_stringify : JsObject -> string)
    (JSON_parse : string -> option JsObject)
    (pako_deflate : string -> list byte)
    (pako_inflate : list byte -> option string)
    (P : JsObject)
    (Hjson : JSON_parse (JSON_stringify P) = Some P)
    (Hzlib : pako_inflate (pako_deflate (JSON_stringify P))
             = Some (JSON_stringify P))
    (Hstream : pako_deflate (JSON_stringify P) <> []) :
  matches_url_safe (encodeJzb JSON_stringify pako_deflate P) = true
  /\ decodeJzb JSON_parse pako_inflate (encodeJzb JSON_stringify pako_deflate P)
     = Some P.
Proof.
  split.
  - unfold matches_url_safe. rewrite encodeJzb_chars, andb_true_r.
    apply negb_true_iff, String.eqb_neq.
    rewrite encodeJzb_unfold. now apply encode_nonempty.
  - rewrite decodeJzb_unfold, encodeJzb_unfold.
    rewrite repad_of_url_strip_to_url, decode_encode.
    now rewrite Hzlib.
Qed.

(** The payload of the first test, with the reference builtins. *)
Lemma encodeJzb_roundtrip_witness :
  let P := [("visitorId", JStr "user-123"); ("accountId", JStr "account-456");
            ("url", JStr "https://example.com/path?query=value")] in
  matches_url_safe (encodeJzb Reference.JSON_stringify Reference.pako_deflate P)
  = true
  /\ decodeJzb Reference.JSON_parse Reference.pako_inflate
       (encodeJzb Reference.JSON_stringify Reference.pako_deflate P)
     = Some P.
Proof.
  apply (encodeJzb_roundtrip Reference.JSON_stringify Reference.JSON_parse
           Reference.pako_deflate Reference.pako_inflate).
  - vm_compute. reflexivity.
  - vm_compute. reflexivity.
  - vm_compute. discriminate.
Defined.

Example encodeJzb_empty_object :
  encodeJzb Reference.JSON_stringify Reference.pako_deflate [] = "eAEBAgD9_3t9AXUA-Q"
  /\ decodeJzb Reference.JSON_parse Reference.pako_inflate "eAEBAgD9_3t9AXUA-Q"
     = Some [].
Proof. split; vm_compute; reflexivity. Qed.

(** A property holding [undefined] is not JSON data: [JSON.stringify]
    leaves it out, so the decoder returns the payload without it (the two
    are equal for Jest's [toEqual]).  This is the payload
    [fetchSegmentFlags] builds for a context without an account id. *)
Example encodeJzb_undefined_property :
  decodeJzb Reference.JSON_parse Reference.pako_inflate
    (encodeJzb Reference.JSON_stringify Reference.pako_deflate
       [("visitorId", JStr "user-123"); ("accountId", JUndefined);
        ("url", JStr "https://example.com")])
  = Some [("visitorId", JStr "user-123"); ("url", JStr "https://example.com")].
Proof. vm_compute. reflexivity. Qed.

(** Non-ASCII text (the UTF-8 bytes of a three-byte character). *)
Example encodeJzb_non_ascii :
  let P := [("visitorId",
             JStr (String "230" (String "151" (String "165" EmptyString))))] in
  decodeJzb Reference.JSON_parse Reference.pako_inflate
    (encodeJzb Reference.JSON_stringify Reference.pako_deflate P) = Some P.
Proof. vm_compute. reflexivity. Qed.

(** ** Running the provider's methods *)

Lemma includes_spec (l : list string) (x : string) :
  includes l x = true <-> x ∈ l.
Proof.
  unfold includes. rewrite existsb_exists, list_elem_of_In. split.
  - intros (y & Hy & Heq). apply String.eqb_eq in Heq. now subst.
  - intros H. exists x. split; [assumption | apply String.eqb_refl].
Qed.

Lemma includes_false (l : list string) (x : string) :
  includes l x = false <-> x ∉ l.
Proof.
  rewrite <- includes_spec. destruct (includes l x); split; congruence.
Qed.

Lemma enabled_not_disabled : enabled_result <> disabled_result.
Proof. discriminate. Qed.

Section Running.

Variable JSON_stringify : JsObject -> string.
Variable pako_deflate : string -> list byte.
Variable network : list Request -> Request -> Reply.

Abbreviation fetchFlags :=
  (fetchSegmentFlags JSON_stringify pako_deflate network).
Abbreviation getFlags :=
  (getSegmentFlags JSON_stringify pako_deflate network).
Abbreviation resolveBoolean :=
  (resolveBooleanEvaluation JSON_stringify pako_deflate network).
Abbreviation segment_req := (segment_request JSON_stringify pako_deflate).

Lemma cache_lookup_run key s :
  cache_lookup key s
  = (Returned
       match cache s !! key with
       | Some entry =>
           if (expiresAt entry >? now s)%Z then Some (flags entry) else None
       | None => None
       end, s).
Proof.
  unfold cache_lookup, Date_now, bind, gets, ret.
  destruct (cache s !! key) as [entry|]; [|reflexivity].
  cbv beta iota. now destruct (expiresAt entry >? now s)%Z.
Qed.

Lemma cache_lookup_absent key s :
  cache_lookup key s = (Returned None, s) <-> absent key s.
Proof.
  rewrite cache_lookup_run. unfold absent.
  destruct (cache s !! key) as [entry|] eqn:E.
  - destruct (Z.gtb_spec (expiresAt entry) (now s)); split.
    + discriminate.
    + intros [?|(e' & He' & Hle)]; [discriminate|].
      injection He' as <-. lia.
    + intros _. right. exists entry. split; [reflexivity | lia].
    + reflexivity.
  - split; [now left | reflexivity].
Qed.

Lemma cache_lookup_live key s entry :
  cache s !! key = Some entry -> live (now s) entry ->
  cache_lookup key s = (Returned (Some (flags entry)), s).
Proof.
  unfold live. intros E Hlive. rewrite cache_lookup_run, E.
  destruct (Z.gtb_spec (expiresAt entry) (now s)); [reflexivity | lia].
Qed.

(** What [fetchFlags] does with the reply of the service. *)
Lemma fetchSegmentFlags_run visitorId accountId s :
  fetchFlags visitorId accountId s
  = (match settled (network (requests s)
                      (segment_req (options s) visitorId accountId)) with
     | Threw e => Threw e
     | Returned response =>
         if (resp_status response =? 202)%Z then Returned []
         else if (resp_status response =? 429)%Z then
           Threw (ErrorObj "Pendo API rate limit exceeded")
         else if (resp_status response =? 451)%Z then Returned []
         else if negb (resp_ok response) then
           Threw (ErrorObj ("Pendo API error: " ++ pretty (resp_status response)
                              ++ " " ++ resp_statusText response))
         else
           match resp_json response with
           | Returned data => Returned (default [] (segmentFlags data))
           | Threw e => Threw e
           end
     end,
     awaited network (segment_req (options s) visitorId accountId) s).
Proof.
  unfold fetchSegmentFlags, bind, gets, fetch,
    awaited, segment_request.
  cbn [options set_now set_requests].
  match goal with
  | |- context [settled ?r] => destruct (settled r) as [response|e]
  end; [|reflexivity].
  destruct (resp_status response =? 202)%Z; [reflexivity|].
  destruct (resp_status response =? 429)%Z; [reflexivity|].
  destruct (resp_status response =? 451)%Z; [reflexivity|].
  destruct (negb (resp_ok response)); [reflexivity|].
  unfold response_json, ret. now destruct (resp_json response).
Qed.

Lemma getSegmentFlags_no_visitor context s :
  truthy (targetingKey context) = false ->
  getFlags context s = (Returned None, logged warn_no_visitor s).
Proof.
  intros H. unfold getSegmentFlags. rewrite H.
  reflexivity.
Qed.

Lemma getSegmentFlags_hit context s entry :
  truthy (targetingKey context) = true ->
  cache s !! context_key context = Some entry ->
  live (now s) entry ->
  getFlags context s = (Returned (Some (flags entry)), s).
Proof.
  intros H E Hlive. unfold getSegmentFlags.
  rewrite H. cbn [negb]. unfold bind at 1.
  fold (context_key context).
  now rewrite (cache_lookup_live _ _ _ E Hlive).
Qed.

Lemma getSegmentFlags_miss context s :
  truthy (targetingKey context) = true ->
  absent (context_key context) s ->
  getFlags context s
  = match fetchFlags (or_empty (targetingKey context))
            (accountId context) s with
    | (Returned found, s1) =>
        (Returned (Some found), stored (context_key context) found s1)
    | (Threw e, s1) =>
        (Threw e,
         logged (Error "[PendoProvider] Failed to fetch segment flags:" e) s1)
    end.
Proof.
  intros H Habs. unfold getSegmentFlags.
  rewrite H. cbn [negb]. unfold bind at 1.
  fold (context_key context).
  apply cache_lookup_absent in Habs. rewrite Habs.
  unfold try_catch, bind at 1.
  destruct (fetchFlags _ _ s) as [[found|e] s1]; reflexivity.
Qed.

Lemma resolveBoolean_by_segment flagKey defaultValue context s :
  resolveBoolean flagKey defaultValue context s
  = match getFlags context s with
    | (Returned None, s1) => (Returned (default_result defaultValue), s1)
    | (Returned (Some found), s1) =>
        (Returned (membership_result found flagKey), s1)
    | (Threw e, s1) =>
        (Returned (error_result defaultValue (message_of e)),
         logged (Error "[PendoProvider] Error evaluating flag:" e) s1)
    end.
Proof.
  unfold resolveBooleanEvaluation,
    try_catch, bind at 1.
  destruct (getFlags context s) as [[[found|]|e] s1]; try reflexivity.
  unfold ret, membership_result, enabled_result, disabled_result.
  now destruct (includes found flagKey).
Qed.

Lemma resolveBoolean_total flagKey defaultValue context s :
  exists r s', resolveBoolean flagKey defaultValue context s = (Returned r, s').
Proof.
  rewrite resolveBoolean_by_segment.
  destruct (getFlags context s) as [[[found|]|e] s1]; eauto.
Qed.

Lemma resolveBoolean_no_visitor flagKey defaultValue context s :
  truthy (targetingKey context) = false ->
  resolveBoolean flagKey defaultValue context s
  = (Returned (default_result defaultValue), logged warn_no_visitor s).
Proof.
  intros H. now rewrite resolveBoolean_by_segment, getSegmentFlags_no_visitor.
Qed.

Lemma resolveBoolean_hit flagKey defaultValue context s entry :
  truthy (targetingKey context) = true ->
  cache s !! context_key context = Some entry ->
  live (now s) entry ->
  resolveBoolean flagKey defaultValue context s
  = (Returned (membership_result (flags entry) flagKey), s).
Proof.
  intros H E Hlive.
  now rewrite resolveBoolean_by_segment, (getSegmentFlags_hit _ _ _ H E Hlive).
Qed.

Lemma resolveBoolean_miss flagKey defaultValue context s :
  truthy (targetingKey context) = true ->
  absent (context_key context) s ->
  resolveBoolean flagKey defaultValue context s
  = match fetchFlags (or_empty (targetingKey context)) (accountId context) s with
    | (Returned found, s1) =>
        (Returned (membership_result found flagKey),
         stored (context_key context) found s1)
    | (Threw e, s1) =>
        (Returned (error_result defaultValue (message_of e)),
         logged (Error "[PendoProvider] Error evaluating flag:" e)
           (logged (Error "[PendoProvider] Failed to fetch segment flags:" e)
              s1))
    end.
Proof.
  intros H Habs.
  rewrite resolveBoolean_by_segment, (getSegmentFlags_miss _ _ H Habs).
  now destruct (fetchFlags _ _ s) as [[found|e] s1].
Qed.

(** A miss sends exactly one request, whatever the service answers. *)
Lemma resolveBoolean_miss_requests flagKey defaultValue context s :
  truthy (targetingKey context) = true ->
  absent (context_key context) s ->
  requests (snd (resolveBoolean flagKey defaultValue context s))
  = (requests s
     ++ [segment_req (options s) (or_empty (targetingKey context))
           (accountId context)])%list.
Proof.
  intros H Habs. rewrite (resolveBoolean_miss _ _ _ _ H Habs).
  rewrite fetchSegmentFlags_run.
  match goal with
  | |- context [match ?o with Returned _ => _ | Threw _ => _ end] =>
      destruct o as [found|e]
  end; reflexivity.
Qed.

(** An entry stored for one context serves every context with the same
    key until it expires. *)
Lemma resolveBoolean_served flagKey defaultValue context key found sf s2 :
  truthy (targetingKey context) = true ->
  context_key context = key ->
  cache s2 = cache (stored key found sf) ->
  now s2 < now sf + cacheTtl (options sf) ->
  resolveBoolean flagKey defaultValue context s2
  = (Returned (membership_result found flagKey), s2).
Proof.
  intros H Hkey Hcache Hlive.
  apply (resolveBoolean_hit flagKey defaultValue context s2
           {| flags := found; expiresAt := now sf + cacheTtl (options sf) |} H).
  - rewrite Hcache, Hkey. unfold stored. cbn [cache set_cache].
    apply lookup_insert_eq.
  - exact Hlive.
Qed.

(** An expired entry is no better than none. *)
Lemma absent_after_expiry key found sf s2 :
  cache s2 = cache (stored key found sf) ->
  now sf + cacheTtl (options sf) <= now s2 ->
  absent key s2.
Proof.
  intros Hcache Hexp. right.
  exists {| flags := found; expiresAt := now sf + cacheTtl (options sf) |}.
  split.
  - rewrite Hcache. unfold stored. cbn [cache set_cache].
    apply lookup_insert_eq.
  - exact Hexp.
Qed.

Lemma absent_empty key s : cache s = ∅ -> absent key s.
Proof. intros H. left. rewrite H. apply lookup_empty. Qed.

(** The typed resolvers, in terms of the boolean result. *)
Lemma derived_result_code {T} (on off defaultValue : T) b :
  (if String.eqb (reason b) "ERROR" then
     {| value := defaultValue; reason := "ERROR"; variant := None;
        errorCode := errorCode b; errorMessage := errorMessage b |}
   else if String.eqb (reason b) "DEFAULT" && negb (value b) then
     {| value := defaultValue; reason := "DEFAULT"; variant := Some "default";
        errorCode := None; errorMessage := None |}
   else
     {| value := if value b then on else off;
        reason := reason b; variant := variant b;
        errorCode := None; errorMessage := None |})
  = derived_result on off defaultValue b.
Proof.
  unfold derived_result.
  destruct (String.eqb_spec (reason b) "ERROR") as [E|E].
  - now rewrite bool_decide_eq_true_2.
  - rewrite bool_decide_eq_false_2 by assumption.
    destruct (String.eqb_spec (reason b) "DEFAULT") as [E'|E'];
      destruct (value b) eqn:V; cbn [andb negb].
    + rewrite bool_decide_eq_false_2; [reflexivity | intros []; congruence].
    + now rewrite bool_decide_eq_true_2.
    + rewrite bool_decide_eq_false_2; [reflexivity | intros []; congruence].
    + rewrite bool_decide_eq_false_2; [reflexivity | intros []; congruence].
Qed.

Lemma resolveString_by_boolean flagKey defaultValue context s b s' :
  resolveBoolean flagKey false context s = (Returned b, s') ->
  resolveStringEvaluation JSON_stringify pako_deflate network
    flagKey defaultValue context s
  = (Returned (derived_result "on" "off" defaultValue b), s').
Proof.
  intros H. unfold resolveStringEvaluation, bind at 1. rewrite H.
  rewrite <- derived_result_code. unfold ret.
  destruct (String.eqb (reason b) "ERROR"); [reflexivity|].
  now destruct (String.eqb (reason b) "DEFAULT" && negb (value b)).
Qed.

Lemma resolveNumber_by_boolean flagKey defaultValue context s b s' :
  resolveBoolean flagKey false context s = (Returned b, s') ->
  resolveNumberEvaluation JSON_stringify pako_deflate network
    flagKey defaultValue context s
  = (Returned (derived_result 1 0 defaultValue b), s').
Proof.
  intros H. unfold resolveNumberEvaluation, bind at 1. rewrite H.
  rewrite <- derived_result_code. unfold ret.
  destruct (String.eqb (reason b) "ERROR"); [reflexivity|].
  now destruct (String.eqb (reason b) "DEFAULT" && negb (value b)).
Qed.

Lemma resolveObject_by_boolean flagKey defaultValue context s b s' :
  resolveBoolean flagKey false context s = (Returned b, s') ->
  resolveObjectEvaluation JSON_stringify pako_deflate network
    flagKey defaultValue context s
  = (Returned (derived_result object_on object_off defaultValue b), s').
Proof.
  intros H. unfold resolveObjectEvaluation, bind at 1. rewrite H.
  rewrite <- derived_result_code. unfold ret, object_on, object_off.
  destruct (String.eqb (reason b) "ERROR"); [reflexivity|].
  destruct (String.eqb (reason b) "DEFAULT" && negb (value b)); [reflexivity|].
  now destruct (value b).
Qed.

End Running.

(** ** Boolean resolution *)

(** C1.  For every flag key and every context with a visitor id, if
    [getSegmentFlags] yields a flag set (from the cache or from the
    service), then [resolveBooleanEvaluation] returns one result, the same
    for every default value: it is [{value: true, reason: TARGETING_MATCH,
    variant: "on"}] exactly when the key is in the set, and [{value: false,
    reason: DEFAULT, variant: "off"}] exactly when it is not. *)
Theorem resolveBoolean_membership
    (JSON_stringify : JsObject -> string)
    (pako_deflate : string -> list byte)
    (network : list Request -> Request -> Reply)
    (flagKey : string) (context : EvaluationContext)
    (s s1 : State) (found : list string)
    (Hvisitor : truthy (targetingKey context) = true)
    (Hfound : getSegmentFlags JSON_stringify pako_deflate network context s
              = (Returned (Some found), s1)) :
  exists r : ResolutionDetails bool,
    (forall defaultValue : bool,
        resolveBooleanEvaluation JSON_stringify pako_deflate network
          flagKey defaultValue context s = (Returned r, s1))
    /\ (r = enabled_result <-> flagKey ∈ found)
    /\ (r = disabled_result <-> flagKey ∉ found).
Proof.
  exists (membership_result found flagKey). split; [|split].
  - intros defaultValue. now rewrite resolveBoolean_by_segment, Hfound.
  - unfold membership_result. rewrite <- includes_spec.
    destruct (includes found flagKey); split; congruence || discriminate.
  - unfold membership_result. rewrite <- includes_false.
    destruct (includes found flagKey); split; congruence || discriminate.
Qed.

(** The first two tests of [resolveBooleanEvaluation]. *)
Lemma resolveBoolean_membership_witness :
  exists r : ResolutionDetails bool,
    (forall defaultValue : bool,
        resolveBooleanEvaluation Reference.JSON_stringify Reference.pako_deflate
          (Scenario.serving ["feature-a"; "feature-b"])
          "feature-a" defaultValue Scenario.user123 Scenario.provider
        = (Returned r,
           snd (getSegmentFlags Reference.JSON_stringify Reference.pako_deflate
                  (Scenario.serving ["feature-a"; "feature-b"])
                  Scenario.user123 Scenario.provider)))
    /\ (r = enabled_result <-> "feature-a" ∈ ["feature-a"; "feature-b"])
    /\ (r = disabled_result <-> "feature-a" ∉ ["feature-a"; "feature-b"]).
Proof.
  apply (resolveBoolean_membership Reference.JSON_stringify
           Reference.pako_deflate (Scenario.serving ["feature-a"; "feature-b"])
           "feature-a" Scenario.user123 Scenario.provider
           (snd (getSegmentFlags Reference.JSON_stringify Reference.pako_deflate
                   (Scenario.serving ["feature-a"; "feature-b"])
                   Scenario.user123 Scenario.provider))
           ["feature-a"; "feature-b"]).
  - reflexivity.
  - vm_compute. reflexivity.
Defined.

Example resolveBoolean_feature_a :
  fst (resolveBooleanEvaluation Reference.JSON_stringify Reference.pako_deflate
         (Scenario.serving ["feature-a"; "feature-b"])
         "feature-a" false Scenario.user123 Scenario.provider)
  = Returned enabled_result.
Proof. vm_compute. reflexivity. Qed.

Example resolveBoolean_feature_c :
  fst (resolveBooleanEvaluation Reference.JSON_stringify Reference.pako_deflate
         (Scenario.serving ["feature-a"; "feature-b"])
         "feature-c" true Scenario.user123 Scenario.provider)
  = Returned disabled_result.
Proof. vm_compute. reflexivity. Qed.

(** ** Contexts without a visitor *)

(** C5.  For every flag key, if the context has no visitor id
    ([targetingKey] absent or empty), each of the four resolvers returns
    [{value: defaultValue, reason: DEFAULT, variant: "default"}] for every
    default value.  The only effect is one console warning: no request is
    sent, the cache is left as it was, and the outcome is the same
    whatever the cache holds. *)
Theorem no_visitor_returns_default
    (JSON_stringify : JsObject -> string)
    (pako_deflate : string -> list byte)
    (network : list Request -> Request -> Reply)
    (flagKey : string) (context : EvaluationContext) (s : State)
    (Hanonymous : truthy (targetingKey context) = false) :
  (forall defaultValue : bool,
      resolveBooleanEvaluation JSON_stringify pako_deflate network
        flagKey defaultValue context s
      = (Returned (default_result defaultValue), logged warn_no_visitor s))
  /\ (forall defaultValue : string,
         resolveStringEvaluation JSON_stringify pako_deflate network
           flagKey defaultValue context s
         = (Returned (default_result defaultValue), logged warn_no_visitor s))
  /\ (forall defaultValue : Z,
         resolveNumberEvaluation JSON_stringify pako_deflate network
           flagKey defaultValue context s
         = (Returned (default_result defaultValue), logged warn_no_visitor s))
  /\ (forall defaultValue : JsValue,
         resolveObjectEvaluation JSON_stringify pako_deflate network
           flagKey defaultValue context s
         = (Returned (default_result defaultValue), logged warn_no_visitor s))
  /\ requests (logged warn_no_visitor s) = requests s
  /\ cache (logged warn_no_visitor s) = cache s
  /\ (forall (c : gmap string CacheEntry) (defaultValue : bool),
         resolveBooleanEvaluation JSON_stringify pako_deflate network
           flagKey defaultValue context (set_cache c s)
         = (Returned (default_result defaultValue),
            set_cache c (logged warn_no_visitor s))).
Proof.
  pose proof (resolveBoolean_no_visitor JSON_stringify pako_deflate network
                flagKey false context s Hanonymous) as Hb.
  repeat split.
  - intros d. now apply resolveBoolean_no_visitor.
  - intros d. now rewrite (resolveString_by_boolean _ _ _ _ _ _ _ _ _ Hb).
  - intros d. now rewrite (resolveNumber_by_boolean _ _ _ _ _ _ _ _ _ Hb).
  - intros d. now rewrite (resolveObject_by_boolean _ _ _ _ _ _ _ _ _ Hb).
  - intros c d. now rewrite resolveBoolean_no_visitor.
Qed.

(** The test "returns default value when no targetingKey provided", and
    the same call with an empty [targetingKey]. *)
Lemma no_visitor_returns_default_witness :
  resolveBooleanEvaluation Reference.JSON_stringify Reference.pako_deflate
    (Scenario.serving ["feature-a"]) "feature-a" true Scenario.anonymous
    Scenario.provider
  = (Returned (default_result true), logged warn_no_visitor Scenario.provider)
  /\ resolveNumberEvaluation Reference.JSON_stringify Reference.pako_deflate
       (Scenario.serving ["feature-a"]) "feature-a" 42
       {| targetingKey := Some ""; accountId := Some "account-456" |}
       Scenario.provider
     = (Returned (default_result 42), logged warn_no_visitor Scenario.provider).
Proof.
  split.
  - apply (no_visitor_returns_default Reference.JSON_stringify
             Reference.pako_deflate (Scenario.serving ["feature-a"])
             "feature-a" Scenario.anonymous Scenario.provider).
    reflexivity.
  - apply (no_visitor_returns_default Reference.JSON_stringify
             Reference.pako_deflate (Scenario.serving ["feature-a"])
             "feature-a"
             {| targetingKey := Some ""; accountId := Some "account-456" |}
             Scenario.provider).
    reflexivity.
Defined.

(** ** The typed resolvers *)

(** C6.  Each of [resolveStringEvaluation], [resolveNumberEvaluation] and
    [resolveObjectEvaluation] runs [resolveBooleanEvaluation(flagKey,
    false, context)] and returns, in the state that call leaves, the
    result the derivation rule [derived_result] gives for the boolean
    result: with ["on"]/["off"] for strings, [1]/[0] for numbers and
    [{enabled: true}]/[{enabled: false}] for objects. *)
Theorem typed_resolvers_derived
    (JSON_stringify : JsObject -> string)
    (pako_deflate : string -> list byte)
    (network : list Request -> Request -> Reply)
    (flagKey : string) (context : EvaluationContext) (s : State) :
  exists (b : ResolutionDetails bool) (s' : State),
    resolveBooleanEvaluation JSON_stringify pako_deflate network
      flagKey false context s = (Returned b, s')
    /\ (forall defaultValue : string,
           resolveStringEvaluation JSON_stringify pako_deflate network
             flagKey defaultValue context s
           = (Returned (derived_result "on" "off" defaultValue b), s'))
    /\ (forall defaultValue : Z,
           resolveNumberEvaluation JSON_stringify pako_deflate network
             flagKey defaultValue context s
           = (Returned (derived_result 1 0 defaultValue b), s'))
    /\ (forall defaultValue : JsValue,
           resolveObjectEvaluation JSON_stringify pako_deflate network
             flagKey defaultValue context s
           = (Returned (derived_result object_on object_off defaultValue b), s')).
Proof.
  destruct (resolveBoolean_total JSON_stringify pako_deflate network
              flagKey false context s) as (b & s' & Hb).
  exists b, s'. repeat split; [assumption|..]; intros d.
  - now apply resolveString_by_boolean.
  - now apply resolveNumber_by_boolean.
  - now apply resolveObject_by_boolean.
Qed.

Example derived_result_error :
  derived_result "on" "off" "fallback" (error_result false "Network error")
  = error_result "fallback" "Network error".
Proof. reflexivity. Qed.

Example derived_result_enabled :
  derived_result 1 0 42 enabled_result
  = {| value := 1; reason := "TARGETING_MATCH"; variant := Some "on";
       errorCode := None; errorMessage := None |}.
Proof. reflexivity. Qed.

Example derived_result_disabled :
  derived_result object_on object_off JNull disabled_result
  = default_result JNull.
Proof. reflexivity. Qed.

Example resolveString_enabled :
  fst (resolveStringEvaluation Reference.JSON_stringify Reference.pako_deflate
         (Scenario.serving ["feature-a"]) "feature-a" "default"
         Scenario.user123 Scenario.provider)
  = Returned {| value := "on"; reason := "TARGETING_MATCH";
                variant := Some "on";
                errorCode := None; errorMessage := None |}.
Proof. vm_compute. reflexivity. Qed.

(** ** The remote service *)

Lemma stored_lookup key found s :
  cache (stored key found s) !! key
  = Some {| flags := found; expiresAt := now s + cacheTtl (options s) |}.
Proof. unfold stored. cbn [cache set_cache]. apply lookup_insert_eq. Qed.

Lemma resolveBoolean_never_throws JSON_stringify pako_deflate network
    flagKey defaultValue context s e s' :
  resolveBooleanEvaluation JSON_stringify pako_deflate network
    flagKey defaultValue context s <> (Threw e, s').
Proof.
  destruct (resolveBoolean_total JSON_stringify pako_deflate network
              flagKey defaultValue context s) as (r & s1 & H).
  rewrite H. discriminate.
Qed.

(** C2.  Consider a resolution that has to ask the service (a visitor id,
    no usable cache entry) and the response the service gives.
    - Status 202 and status 451 give the empty flag set: it is cached and
      the resolution is the ordinary "not a member" result, not an error.
    - Status 429 makes [fetchSegmentFlags] throw an [Error] whose message
      mentions the rate limit.
    - Any other status with [ok] false makes it throw an [Error] whose
      message carries the status and the status text.
    - Whatever [getSegmentFlags] throws (one of the above, a rejected
      [fetch], a body that does not parse), [resolveBooleanEvaluation]
      returns [{value: defaultValue, reason: ERROR, errorCode: GENERAL,
      errorMessage}], where the message is that of the [Error] (and
      "Unknown error" for a thrown value that is not an [Error]).
    - [resolveBooleanEvaluation] returns a result on every input: it never
      ends in an exception. *)
Theorem remote_status_mapping
    (JSON_stringify : JsObject -> string)
    (pako_deflate : string -> list byte)
    (network : list Request -> Request -> Reply)
    (flagKey : string) (defaultValue : bool)
    (context : EvaluationContext) (s : State) (response : Response)
    (Hvisitor : truthy (targetingKey context) = true)
    (Hmiss : absent (context_key context) s)
    (Hreply :
       settled (network (requests s)
                  (segment_request JSON_stringify pako_deflate (options s)
                     (or_empty (targetingKey context)) (accountId context)))
       = Returned response) :
  (resp_status response = 202 \/ resp_status response = 451 ->
     exists s1,
       resolveBooleanEvaluation JSON_stringify pako_deflate network
         flagKey defaultValue context s = (Returned disabled_result, s1)
       /\ exists t, cache s1 !! context_key context
                    = Some {| flags := []; expiresAt := t |})
  /\ (resp_status response = 429 ->
        fst (fetchSegmentFlags JSON_stringify pako_deflate network
               (or_empty (targetingKey context)) (accountId context) s)
        = Threw (ErrorObj "Pendo API rate limit exceeded")
        /\ contains "rate limit" "Pendo API rate limit exceeded" = true
        /\ fst (resolveBooleanEvaluation JSON_stringify pako_deflate network
                  flagKey defaultValue context s)
           = Returned (error_result defaultValue
                         "Pendo API rate limit exceeded"))
  /\ (resp_status response <> 202 -> resp_status response <> 429 ->
      resp_status response <> 451 -> resp_ok response = false ->
        fst (fetchSegmentFlags JSON_stringify pako_deflate network
               (or_empty (targetingKey context)) (accountId context) s)
        = Threw (ErrorObj ("Pendo API error: " ++ pretty (resp_status response)
                             ++ " " ++ resp_statusText response))
        /\ fst (resolveBooleanEvaluation JSON_stringify pako_deflate network
                  flagKey defaultValue context s)
           = Returned (error_result defaultValue
                         ("Pendo API error: " ++ pretty (resp_status response)
                            ++ " " ++ resp_statusText response)))
  /\ (forall flagKey' defaultValue' context' s0 e s1,
         getSegmentFlags JSON_stringify pako_deflate network context' s0
         = (Threw e, s1) ->
         resolveBooleanEvaluation JSON_stringify pako_deflate network
           flagKey' defaultValue' context' s0
         = (Returned (error_result defaultValue' (message_of e)),
            logged (Error "[PendoProvider] Error evaluating flag:" e) s1))
  /\ (forall flagKey' defaultValue' context' s0,
         exists r s1,
           resolveBooleanEvaluation JSON_stringify pako_deflate network
             flagKey' defaultValue' context' s0 = (Returned r, s1)).
Proof.
  pose proof (resolveBoolean_miss JSON_stringify pako_deflate network
                flagKey defaultValue context s Hvisitor Hmiss) as Hres.
  pose proof (fetchSegmentFlags_run JSON_stringify pako_deflate network
                (or_empty (targetingKey context)) (accountId context) s) as Hf.
  rewrite Hreply in Hf.
  split; [|split; [|split; [|split]]].
  - intros Hstatus.
    assert (Hempty :
      fst (fetchSegmentFlags JSON_stringify pako_deflate network
             (or_empty (targetingKey context)) (accountId context) s)
      = Returned []).
    { rewrite Hf. cbn [fst].
      destruct Hstatus as [-> | ->]; reflexivity. }
    destruct (fetchSegmentFlags _ _ _ _ _ s) as [o sf]. cbn [fst] in Hempty.
    subst o. eexists. split; [exact Hres|].
    eexists. apply stored_lookup.
  - intros Hstatus.
    assert (Hthrow :
      fst (fetchSegmentFlags JSON_stringify pako_deflate network
             (or_empty (targetingKey context)) (accountId context) s)
      = Threw (ErrorObj "Pendo API rate limit exceeded")).
    { rewrite Hf. cbn [fst]. now rewrite Hstatus. }
    split; [exact Hthrow|]. split; [reflexivity|].
    rewrite Hres.
    destruct (fetchSegmentFlags _ _ _ _ _ s) as [o sf]. cbn [fst] in Hthrow.
    now subst o.
  - intros H202 H429 H451 Hok.
    assert (Hthrow :
      fst (fetchSegmentFlags JSON_stringify pako_deflate network
             (or_empty (targetingKey context)) (accountId context) s)
      = Threw (ErrorObj ("Pendo API error: " ++ pretty (resp_status response)
                           ++ " " ++ resp_statusText response))).
    { rewrite Hf. cbn [fst].
      apply Z.eqb_neq in H202, H429, H451.
      now rewrite H202, H429, H451, Hok. }
    split; [exact Hthrow|].
    rewrite Hres.
    destruct (fetchSegmentFlags _ _ _ _ _ s) as [o sf]. cbn [fst] in Hthrow.
    now subst o.
  - intros fk dv ctx s0 e s1 Hthrown.
    now rewrite resolveBoolean_by_segment, Hthrown.
  - intros fk dv ctx s0. apply resolveBoolean_total.
Qed.

(** The tests "handles 429 rate limit error" and "handles generic API
    errors". *)
Lemma remote_status_mapping_witness :
  fst (resolveBooleanEvaluation Reference.JSON_stringify Reference.pako_deflate
         (Scenario.answering 429 "Too Many Requests")
         "feature-a" false Scenario.user123 Scenario.provider)
  = Returned (error_result false "Pendo API rate limit exceeded")
  /\ fst (resolveBooleanEvaluation Reference.JSON_stringify
            Reference.pako_deflate
            (Scenario.answering 500 "Internal Server Error")
            "feature-a" false Scenario.user123 Scenario.provider)
     = Returned (error_result false
                   "Pendo API error: 500 Internal Server Error").
Proof.
  split.
  - assert (Hmiss : absent (context_key Scenario.user123) Scenario.provider)
      by (left; vm_compute; reflexivity).
    destruct (remote_status_mapping Reference.JSON_stringify
                Reference.pako_deflate
                (Scenario.answering 429 "Too Many Requests")
                "feature-a" false Scenario.user123 Scenario.provider
                (Reference.status_response 429 "Too Many Requests")
                eq_refl Hmiss eq_refl) as (_ & H429 & _).
    apply H429. reflexivity.
  - assert (Hmiss : absent (context_key Scenario.user123) Scenario.provider)
      by (left; vm_compute; reflexivity).
    destruct (remote_status_mapping Reference.JSON_stringify
                Reference.pako_deflate
                (Scenario.answering 500 "Internal Server Error")
                "feature-a" false Scenario.user123 Scenario.provider
                (Reference.status_response 500 "Internal Server Error")
                eq_refl Hmiss eq_refl) as (_ & _ & Hother & _).
    apply Hother; [discriminate | discriminate | discriminate | reflexivity].
Defined.

Example resolveBoolean_status_202 :
  fst (resolveBooleanEvaluation Reference.JSON_stringify Reference.pako_deflate
         (Scenario.answering 202 "Accepted")
         "any-flag" true Scenario.user123 Scenario.provider)
  = Returned disabled_result.
Proof. vm_compute. reflexivity. Qed.

Example resolveBoolean_network_error :
  fst (resolveBooleanEvaluation Reference.JSON_stringify Reference.pako_deflate
         Scenario.failing "feature-a" true Scenario.user123 Scenario.provider)
  = Returned (error_result true "Network error").
Proof. vm_compute. reflexivity. Qed.

Example resolveBoolean_rejected_with_non_error :
  fst (resolveBooleanEvaluation Reference.JSON_stringify Reference.pako_deflate
         (Reference.constant_network {| settled := Threw NonError; elapsed := 0 |})
         "feature-a" true Scenario.user123 Scenario.provider)
  = Returned (error_result true "Unknown error").
Proof. vm_compute. reflexivity. Qed.

(** ** The segment cache *)

Lemma fetchSegmentFlags_requests JSON_stringify pako_deflate network
    visitorId accountId s o sf :
  fetchSegmentFlags JSON_stringify pako_deflate network visitorId accountId s
  = (o, sf) ->
  requests sf
  = (requests s
     ++ [segment_request JSON_stringify pako_deflate (options s)
           visitorId accountId])%list
  /\ cache sf = cache s /\ options sf = options s.
Proof.
  rewrite fetchSegmentFlags_run. intros [= _ <-]. repeat split.
Qed.

(** C4.  Take a context with a visitor id for which the cache holds no
    usable entry, and let the fetch of the first resolution succeed with
    flag set [found], resuming in state [sf]; the entry it stores expires
    at [now sf + cacheTtl].
    - The first resolution sends exactly one request and stores the entry.
    - A second resolution for the same ids that starts strictly before the
      expiry (the cache untouched in between) sends no request and answers
      from the stored flag set: one fetch for the two resolutions.
    - A second resolution that starts at or after the expiry sends a
      request again.
    - The lookup finds nothing exactly when there is no entry under the key
      or the entry has [now >= expiresAt].
    - [clearCache] leaves an empty cache, so the next resolution for any
      context with a visitor id sends a request. *)
Theorem cache_consistency
    (JSON_stringify : JsObject -> string)
    (pako_deflate : string -> list byte)
    (network : list Request -> Request -> Reply)
    (context : EvaluationContext) (s sf : State) (found : list string)
    (Hvisitor : truthy (targetingKey context) = true)
    (Hmiss : absent (context_key context) s)
    (Hfetch :
       fetchSegmentFlags JSON_stringify pako_deflate network
         (or_empty (targetingKey context)) (accountId context) s
       = (Returned found, sf)) :
  (forall flagKey defaultValue,
      resolveBooleanEvaluation JSON_stringify pako_deflate network
        flagKey defaultValue context s
      = (Returned (membership_result found flagKey),
         stored (context_key context) found sf))
  /\ requests (stored (context_key context) found sf)
     = (requests s
        ++ [segment_request JSON_stringify pako_deflate (options s)
              (or_empty (targetingKey context)) (accountId context)])%list
  /\ cache (stored (context_key context) found sf) !! context_key context
     = Some {| flags := found; expiresAt := now sf + cacheTtl (options sf) |}
  /\ (forall s2 flagKey defaultValue,
         cache s2 = cache (stored (context_key context) found sf) ->
         now s2 < now sf + cacheTtl (options sf) ->
         resolveBooleanEvaluation JSON_stringify pako_deflate network
           flagKey defaultValue context s2
         = (Returned (membership_result found flagKey), s2))
  /\ (forall s2 flagKey defaultValue,
         cache s2 = cache (stored (context_key context) found sf) ->
         now sf + cacheTtl (options sf) <= now s2 ->
         requests
           (snd (resolveBooleanEvaluation JSON_stringify pako_deflate network
                   flagKey defaultValue context s2))
         = (requests s2
            ++ [segment_request JSON_stringify pako_deflate (options s2)
                  (or_empty (targetingKey context)) (accountId context)])%list)
  /\ (forall key s0,
         cache_lookup key s0 = (Returned None, s0)
         <-> (cache s0 !! key = None
              \/ exists entry,
                  cache s0 !! key = Some entry /\ now s0 >= expiresAt entry))
  /\ (forall s2 context' flagKey defaultValue,
         truthy (targetingKey context') = true ->
         exists s3,
           clearCache s2 = (Returned tt, s3)
           /\ cache s3 = ∅
           /\ requests s3 = requests s2
           /\ requests
                (snd (resolveBooleanEvaluation JSON_stringify pako_deflate
                        network flagKey defaultValue context' s3))
              = (requests s3
                 ++ [segment_request JSON_stringify pako_deflate (options s3)
                       (or_empty (targetingKey context'))
                       (accountId context')])%list).
Proof.
  split; [|split; [|split; [|split; [|split; [|split]]]]].
  - intros fk dv.
    now rewrite (resolveBoolean_miss _ _ _ _ _ _ _ Hvisitor Hmiss), Hfetch.
  - apply fetchSegmentFlags_requests in Hfetch as (Hreq & _ & _).
    exact Hreq.
  - apply stored_lookup.
  - intros s2 fk dv Hcache Hlive.
    now apply (resolveBoolean_served _ _ _ fk dv context
                 (context_key context) found sf s2).
  - intros s2 fk dv Hcache Hexpired.
    apply resolveBoolean_miss_requests; [assumption|].
    now apply (absent_after_expiry _ found sf).
  - intros key s0. rewrite cache_lookup_absent. unfold absent.
    split; (intros [?|(entry & ? & ?)];
            [now left | right; exists entry; split; [assumption | lia]]).
  - intros s2 ctx' fk dv Hv. eexists. split; [reflexivity|].
    repeat split.
    apply resolveBoolean_miss_requests; [assumption|].
    now apply absent_empty.
Qed.

(** The tests "caches results for same visitor/account", "clearCache
    removes cached entries" and "respects cache TTL expiration": the
    number of calls of [fetch] after two resolutions. *)
Lemma cache_consistency_witness :
  List.length
    (requests
       (snd (resolveBooleanEvaluation Reference.JSON_stringify
               Reference.pako_deflate (Scenario.serving ["flag1"])
               "flag2" false Scenario.user123_account456
               (snd (resolveBooleanEvaluation Reference.JSON_stringify
                       Reference.pako_deflate (Scenario.serving ["flag1"])
                       "flag1" false Scenario.user123_account456
                       Scenario.provider)))))
  = 1%nat
  /\ List.length
       (requests
          (snd (resolveBooleanEvaluation Reference.JSON_stringify
                  Reference.pako_deflate (Scenario.serving ["flag1"])
                  "flag1" false Scenario.user123_account456
                  (set_now 70000
                     (snd (resolveBooleanEvaluation Reference.JSON_stringify
                             Reference.pako_deflate (Scenario.serving ["flag1"])
                             "flag1" false Scenario.user123_account456
                             Scenario.provider))))))
     = 2%nat.
Proof.
  assert (Hmiss : absent (context_key Scenario.user123_account456)
                    Scenario.provider)
    by (left; vm_compute; reflexivity).
  destruct (cache_consistency Reference.JSON_stringify Reference.pako_deflate
              (Scenario.serving ["flag1"]) Scenario.user123_account456
              Scenario.provider
              (snd (fetchSegmentFlags Reference.JSON_stringify
                      Reference.pako_deflate (Scenario.serving ["flag1"])
                      "user-123" (Some "account-456") Scenario.provider))
              ["flag1"] eq_refl Hmiss
              ltac:(vm_compute; reflexivity))
    as (Hfirst & Hreq & _ & Hsecond & Hexpired & _).
  split.
  - rewrite Hfirst. cbn [snd].
    rewrite Hsecond; [| reflexivity | vm_compute; reflexivity].
    cbn [snd]. rewrite Hreq. reflexivity.
  - rewrite Hfirst. cbn [snd].
    rewrite Hexpired; [| reflexivity | vm_compute; discriminate].
    cbn [requests set_now]. rewrite length_app.
    change (requests _) with
      (requests (stored (context_key Scenario.user123_account456) ["flag1"]
         (snd (fetchSegmentFlags Reference.JSON_stringify
                 Reference.pako_deflate (Scenario.serving ["flag1"])
                 "user-123" (Some "account-456") Scenario.provider)))).
    rewrite Hreq. reflexivity.
Defined.

(** ** Lifecycle *)

(** C7.  [initialize] throws "Pendo API key is required" when the
    configured [apiKey] is empty (also when [defaultUrl] is empty too: the
    key is checked first), throws "Pendo defaultUrl is required ..." when
    only [defaultUrl] is empty, and otherwise sets the status to [READY];
    so it fails if and only if one of the two is empty.  [onClose] sets the
    status to [NOT_READY] and empties the cache. *)
Theorem initialize_validates (s : State) :
  (apiKey (options s) = "" ->
     initialize s = (Threw (ErrorObj "Pendo API key is required"), s))
  /\ (apiKey (options s) <> "" -> defaultUrl (options s) = "" ->
        initialize s
        = (Threw (ErrorObj
                    "Pendo defaultUrl is required for server-side evaluation"),
           s))
  /\ (apiKey (options s) <> "" -> defaultUrl (options s) <> "" ->
        initialize s = (Returned tt, set_status READY s)
        /\ status (set_status READY s) = READY)
  /\ ((exists e s', initialize s = (Threw e, s'))
      <-> apiKey (options s) = "" \/ defaultUrl (options s) = "")
  /\ (exists s',
         onClose s = (Returned tt, s')
         /\ status s' = NOT_READY /\ cache s' = ∅
         /\ options s' = options s /\ requests s' = requests s).
Proof.
  assert (Hclose : exists s',
             onClose s = (Returned tt, s')
             /\ status s' = NOT_READY /\ cache s' = ∅
             /\ options s' = options s /\ requests s' = requests s)
    by (eexists; repeat split).
  unfold initialize, bind, gets, throw, modify. cbv beta iota.
  destruct (String.eqb_spec (apiKey (options s)) "") as [Ha|Ha];
    [|destruct (String.eqb_spec (defaultUrl (options s)) "") as [Hd|Hd]].
  - repeat split; try congruence; try exact Hclose; eauto.
  - repeat split; try congruence; try exact Hclose; eauto.
  - repeat split; try congruence; try exact Hclose.
    + intros (e & s' & Hx). discriminate.
    + intros [Hx|Hx]; contradiction.
Qed.

(** The three tests of [initialize], and a provider with both settings
    empty. *)
Lemma initialize_validates_witness :
  initialize Scenario.provider
  = (Returned tt, set_status READY Scenario.provider)
  /\ initialize
       (new_PendoProvider
          {| opt_apiKey := ""; opt_defaultUrl := "";
             opt_baseUrl := None; opt_cacheTtl := None;
             opt_trackEventSecret := None |} 0)
     = (Threw (ErrorObj "Pendo API key is required"),
        new_PendoProvider
          {| opt_apiKey := ""; opt_defaultUrl := "";
             opt_baseUrl := None; opt_cacheTtl := None;
             opt_trackEventSecret := None |} 0)
  /\ initialize
       (new_PendoProvider
          {| opt_apiKey := "test-key"; opt_defaultUrl := "";
             opt_baseUrl := None; opt_cacheTtl := None;
             opt_trackEventSecret := None |} 0)
     = (Threw (ErrorObj
                 "Pendo defaultUrl is required for server-side evaluation"),
        new_PendoProvider
          {| opt_apiKey := "test-key"; opt_defaultUrl := "";
             opt_baseUrl := None; opt_cacheTtl := None;
             opt_trackEventSecret := None |} 0).
Proof.
  split; [|split].
  - apply (initialize_validates Scenario.provider); discriminate.
  - apply (initialize_validates
             (new_PendoProvider
                {| opt_apiKey := ""; opt_defaultUrl := "";
                   opt_baseUrl := None; opt_cacheTtl := None;
                   opt_trackEventSecret := None |} 0)).
    reflexivity.
  - apply (initialize_validates
             (new_PendoProvider
                {| opt_apiKey := "test-key"; opt_defaultUrl := "";
                   opt_baseUrl := None; opt_cacheTtl := None;
                   opt_trackEventSecret := None |} 0));
      [discriminate | reflexivity].
Defined.

(** ** Event tracking *)

(** C8.  [track] looks at the secret first and at the visitor id second.
    Without a secret it writes the secret warning, without a visitor id
    (the secret being there) the visitor warning; in both cases it returns
    and no request is sent.  With both it sends, without awaiting, one
    POST to [baseUrl + "/data/track"] whose body is the JSON text of
    [{type: "track", event, visitorId, accountId, timestamp, properties}]
    and whose [x-pendo-track-event-secret] header is the secret; if the
    promise is rejected the failure is written to the console.  In every
    case [track] returns: no exception reaches the caller. *)
Theorem track_preconditions
    (JSON_stringify : JsObject -> string)
    (network : list Request -> Request -> Reply)
    (eventName : string) (context : EvaluationContext)
    (properties : JsValue) (s : State) :
  (truthy (trackEventSecret (options s)) = false ->
     track JSON_stringify network eventName context properties s
     = (Returned tt, logged warn_no_secret s)
     /\ requests (logged warn_no_secret s) = requests s)
  /\ (truthy (trackEventSecret (options s)) = true ->
      truthy (targetingKey context) = false ->
        track JSON_stringify network eventName context properties s
        = (Returned tt, logged warn_track_no_visitor s)
        /\ requests (logged warn_track_no_visitor s) = requests s)
  /\ (forall secret visitorId,
        trackEventSecret (options s) = Some secret -> secret <> "" ->
        targetingKey context = Some visitorId -> visitorId <> "" ->
        exists s',
          track JSON_stringify network eventName context properties s
          = (Returned tt, s')
          /\ requests s'
             = (requests s
                ++ [ {| req_url := baseUrl (options s) ++ "/data/track";
                        req_method := "POST";
                        req_headers :=
                          [ ("Content-Type", "application/json");
                            ("x-pendo-track-event-secret", secret) ];
                        req_body :=
                          Some (JSON_stringify
                                  [ ("type", JStr "track");
                                    ("event", JStr eventName);
                                    ("visitorId", JStr visitorId);
                                    ("accountId",
                                     js_of_opt_string (accountId context));
                                    ("timestamp", JNum (now s));
                                    ("properties", properties) ]) |} ])%list
          /\ cache s' = cache s /\ now s' = now s
          /\ match settled
                     (network (requests s)
                        (track_request JSON_stringify (options s) eventName
                           context properties (now s))) with
             | Returned _ => console s' = console s
             | Threw e =>
                 console s'
                 = (console s
                    ++ [Error "[PendoProvider] Failed to track event:" e])%list
             end)
  /\ (exists s',
         track JSON_stringify network eventName context properties s
         = (Returned tt, s')).
Proof.
  unfold track, bind, gets, Date_now. cbv beta iota.
  destruct (truthy (trackEventSecret (options s))) eqn:Hs; cbn [negb].
  - destruct (truthy (targetingKey context)) eqn:Hv; cbn [negb].
    + split; [discriminate|]. split; [discriminate|].
      assert (Hrun :
        exists s',
          fetch_detached network
            (track_request JSON_stringify (options s) eventName context
               properties (now s))
            (fun error =>
               console_error "[PendoProvider] Failed to track event:" error) s
          = (Returned tt, s')
          /\ requests s'
             = (requests s
                ++ [track_request JSON_stringify (options s) eventName context
                      properties (now s)])%list
          /\ cache s' = cache s /\ now s' = now s
          /\ match settled
                     (network (requests s)
                        (track_request JSON_stringify (options s) eventName
                           context properties (now s))) with
             | Returned _ => console s' = console s
             | Threw e =>
                 console s'
                 = (console s
                    ++ [Error "[PendoProvider] Failed to track event:" e])%list
             end).
      { unfold fetch_detached.
        destruct (settled _) as [response|e]; eexists; repeat split. }
      destruct Hrun as (s' & Hrun' & Hreq & Hrest).
      split.
      * intros secret visitorId Hsecret _ Hvisitor _.
        exists s'. split; [exact Hrun'|]. split; [|exact Hrest].
        rewrite Hreq. unfold track_request.
        now rewrite Hsecret, Hvisitor.
      * exists s'. exact Hrun'.
    + split; [discriminate|]. split; [now split|]. split; [|now eexists].
      intros secret visitorId _ _ Hvisitor Hne. exfalso.
      rewrite Hvisitor in Hv. cbn in Hv.
      apply negb_false_iff, String.eqb_eq in Hv. contradiction.
  - split; [now split|]. split; [discriminate|]. split; [|now eexists].
    intros secret visitorId Hsecret Hne _ _. exfalso.
    rewrite Hsecret in Hs. cbn in Hs.
    apply negb_false_iff, String.eqb_eq in Hs. contradiction.
Qed.

(** The tests "sends track event to Pendo API" (here with a transport
    failure) and "warns when trackEventSecret is not configured". *)
Lemma track_preconditions_witness :
  track Reference.JSON_stringify Scenario.failing "button_clicked"
    Scenario.user123 (JObj []) Scenario.provider
  = (Returned tt, logged warn_no_secret Scenario.provider)
  /\ exists s',
      track Reference.JSON_stringify Scenario.failing "button_clicked"
        Scenario.user123_account456 (JObj [("value", JNum 42)])
        Scenario.track_provider
      = (Returned tt, s')
      /\ requests s'
         = [ {| req_url := "https://data.pendo.io/data/track";
                req_method := "POST";
                req_headers :=
                  [ ("Content-Type", "application/json");
                    ("x-pendo-track-event-secret", "test-secret") ];
                req_body :=
                  Some (Reference.JSON_stringify
                          [ ("type", JStr "track");
                            ("event", JStr "button_clicked");
                            ("visitorId", JStr "user-123");
                            ("accountId", JStr "account-456");
                            ("timestamp", JNum 1000);
                            ("properties", JObj [("value", JNum 42)]) ]) |} ].
Proof.
  split.
  - apply (track_preconditions Reference.JSON_stringify Scenario.failing
             "button_clicked" Scenario.user123 (JObj []) Scenario.provider).
    reflexivity.
  - destruct (track_preconditions Reference.JSON_stringify Scenario.failing
                "button_clicked" Scenario.user123_account456
                (JObj [("value", JNum 42)]) Scenario.track_provider)
      as (_ & _ & Hsend & _).
    destruct (Hsend "test-secret" "user-123" eq_refl ltac:(discriminate)
                eq_refl ltac:(discriminate)) as (s' & Hrun & Hreq & _).
    exists s'. split; [exact Hrun | exact Hreq].
Defined.

Example track_failure_logged :
  console
    (snd (track Reference.JSON_stringify Scenario.failing "button_clicked"
            Scenario.user123 JNull Scenario.track_provider))
  = [Error "[PendoProvider] Failed to track event:" (ErrorObj "Network error")].
Proof. vm_compute. reflexivity. Qed.

Example track_secret_checked_first :
  track Reference.JSON_stringify Scenario.failing "button_clicked"
    Scenario.anonymous JNull Scenario.provider
  = (Returned tt, logged warn_no_secret Scenario.provider).
Proof. reflexivity. Qed.

(** ** What the typed resolvers can return *)

(** The boolean result handed to the typed resolvers has one of four
    shapes. *)
Lemma resolveBoolean_shapes JSON_stringify pako_deflate network
    flagKey defaultValue context s b s' :
  resolveBooleanEvaluation JSON_stringify pako_deflate network
    flagKey defaultValue context s = (Returned b, s') ->
  b = default_result defaultValue \/ b = enabled_result \/ b = disabled_result
  \/ exists msg, b = error_result defaultValue msg.
Proof.
  rewrite resolveBoolean_by_segment.
  destruct (getSegmentFlags _ _ _ context s) as [[[found|]|e] s1];
    intros [= <- _].
  - unfold membership_result. destruct (includes found flagKey); auto.
  - auto.
  - right. right. right. now exists (message_of e).
Qed.

Lemma derived_result_shapes {T} (on off defaultValue : T) b :
  b = default_result false \/ b = enabled_result \/ b = disabled_result
  \/ (exists msg, b = error_result false msg) ->
  value (derived_result on off defaultValue b) = defaultValue
  \/ derived_result on off defaultValue b
     = {| value := on; reason := "TARGETING_MATCH"; variant := Some "on";
          errorCode := None; errorMessage := None |}.
Proof.
  intros [-> | [-> | [-> | [msg ->]]]]; cbn; auto.
Qed.

(** C9 (amended).  The boolean result computed for a typed resolver, when
    it is not an error, has value false exactly when its reason is
    DEFAULT.  Hence every typed resolver returns either its default value
    or the "on" representation with reason TARGETING_MATCH and variant
    "on": the "off" translation is never produced.  In particular
    [resolveStringEvaluation] returns "off" only if "off" is the default
    value, [resolveNumberEvaluation] returns 0 only if 0 is the default
    value, [resolveObjectEvaluation] returns [{enabled: false}] only if
    that is the default value, and a result whose value differs from the
    default value has reason TARGETING_MATCH. *)
Theorem typed_resolvers_never_off
    (JSON_stringify : JsObject -> string)
    (pako_deflate : string -> list byte)
    (network : list Request -> Request -> Reply)
    (flagKey : string) (context : EvaluationContext) (s : State) :
  exists (b : ResolutionDetails bool) (s' : State),
    resolveBooleanEvaluation JSON_stringify pako_deflate network
      flagKey false context s = (Returned b, s')
    /\ (reason b <> "ERROR" -> (value b = false <-> reason b = "DEFAULT"))
    /\ (forall defaultValue : string,
          exists r,
            resolveStringEvaluation JSON_stringify pako_deflate network
              flagKey defaultValue context s = (Returned r, s')
            /\ (value r = defaultValue
                \/ r = {| value := "on"; reason := "TARGETING_MATCH";
                          variant := Some "on";
                          errorCode := None; errorMessage := None |})
            /\ (value r = "off" -> defaultValue = "off")
            /\ (value r <> defaultValue -> reason r = "TARGETING_MATCH"))
    /\ (forall defaultValue : Z,
          exists r,
            resolveNumberEvaluation JSON_stringify pako_deflate network
              flagKey defaultValue context s = (Returned r, s')
            /\ (value r = defaultValue
                \/ r = {| value := 1; reason := "TARGETING_MATCH";
                          variant := Some "on";
                          errorCode := None; errorMessage := None |})
            /\ (value r = 0 -> defaultValue = 0)
            /\ (value r <> defaultValue -> reason r = "TARGETING_MATCH"))
    /\ (forall defaultValue : JsValue,
          exists r,
            resolveObjectEvaluation JSON_stringify pako_deflate network
              flagKey defaultValue context s = (Returned r, s')
            /\ (value r = defaultValue
                \/ r = {| value := object_on; reason := "TARGETING_MATCH";
                          variant := Some "on";
                          errorCode := None; errorMessage := None |})
            /\ (value r = object_off -> defaultValue = object_off)
            /\ (value r <> defaultValue -> reason r = "TARGETING_MATCH")).
Proof.
  destruct (resolveBoolean_total JSON_stringify pako_deflate network
              flagKey false context s) as (b & s' & Hb).
  pose proof (resolveBoolean_shapes _ _ _ _ _ _ _ _ _ Hb) as Hshape.
  exists b, s'. split; [exact Hb|]. split; [|split; [|split]].
  - destruct Hshape as [-> | [-> | [-> | [msg ->]]]]; cbn;
      intros Hne; split; congruence || discriminate.
  - intros d. eexists.
    split; [exact (resolveString_by_boolean _ _ _ _ _ _ _ _ _ Hb)|].
    destruct (derived_result_shapes "on" "off" d b Hshape) as [Hr | Hr].
    + repeat split; [now left | congruence | congruence].
    + rewrite Hr. cbn. repeat split; [now right | discriminate].
  - intros d. eexists.
    split; [exact (resolveNumber_by_boolean _ _ _ _ _ _ _ _ _ Hb)|].
    destruct (derived_result_shapes 1 0 d b Hshape) as [Hr | Hr].
    + repeat split; [now left | congruence | congruence].
    + rewrite Hr. cbn. repeat split; [now right | discriminate].
  - intros d. eexists.
    split; [exact (resolveObject_by_boolean _ _ _ _ _ _ _ _ _ Hb)|].
    destruct (derived_result_shapes object_on object_off d b Hshape)
      as [Hr | Hr].
    + repeat split; [now left | congruence | congruence].
    + rewrite Hr. cbn. repeat split; [now right | discriminate].
Qed.

(** The test "returns "on" when flag is enabled": the value differs from
    the default, so the reason is TARGETING_MATCH. *)
Lemma typed_resolvers_never_off_witness :
  exists r s',
    resolveStringEvaluation Reference.JSON_stringify Reference.pako_deflate
      (Scenario.serving ["feature-a"]) "feature-a" "default"
      Scenario.user123 Scenario.provider = (Returned r, s')
    /\ value r = "on" /\ reason r = "TARGETING_MATCH".
Proof.
  destruct (typed_resolvers_never_off Reference.JSON_stringify
              Reference.pako_deflate (Scenario.serving ["feature-a"])
              "feature-a" Scenario.user123 Scenario.provider)
    as (b & s' & _ & _ & Hstring & _).
  destruct (Hstring "default") as (r & Hr & _ & _ & Hreason).
  exists r, s'. split; [exact Hr|].
  assert (Hvalue : value r = "on").
  { assert (Hrun :
      fst (resolveStringEvaluation Reference.JSON_stringify
             Reference.pako_deflate (Scenario.serving ["feature-a"])
             "feature-a" "default" Scenario.user123 Scenario.provider)
      = Returned {| value := "on"; reason := "TARGETING_MATCH";
                    variant := Some "on";
                    errorCode := None; errorMessage := None |})
      by (vm_compute; reflexivity).
    rewrite Hr in Hrun. cbn [fst] in Hrun. injection Hrun as ->. reflexivity. }
  split; [exact Hvalue|].
  apply Hreason. rewrite Hvalue. discriminate.
Defined.

(** C9 as stated fails at a default value that is itself "off" or "on":
    without a visitor id the string resolver returns "off", and for a
    flag outside the segment it returns "on" with reason DEFAULT. *)
Lemma typed_resolvers_never_off_counterexample :
  fst (resolveStringEvaluation Reference.JSON_stringify Reference.pako_deflate
         (Scenario.serving ["feature-b"]) "feature-a" "off"
         Scenario.anonymous Scenario.provider)
  = Returned {| value := "off"; reason := "DEFAULT";
                variant := Some "default";
                errorCode := None; errorMessage := None |}
  /\ fst (resolveStringEvaluation Reference.JSON_stringify
            Reference.pako_deflate
            (Scenario.serving ["feature-b"]) "feature-a" "on"
            Scenario.user123 Scenario.provider)
     = Returned {| value := "on"; reason := "DEFAULT";
                   variant := Some "default";
                   errorCode := None; errorMessage := None |}.
Proof. split; vm_compute; reflexivity. Qed.

(** ** Cache keys *)

(** C10 (amended).  The cache key [visitorId + ":" + (accountId || "")] is
    not injective on contexts: the context with visitor "a:b" and account
    "c" and the context with visitor "a" and account "b:c" are different
    and have the same key (so do a context without an account id and the
    same context with the empty account id).  Consequently, once a
    resolution for the first context has fetched and cached a flag set,
    a resolution for the second one that starts before the entry expires
    sends no request and is answered from the flag set of the first. *)
Theorem cache_key_collision
    (JSON_stringify : JsObject -> string)
    (pako_deflate : string -> list byte)
    (network : list Request -> Request -> Reply)
    (s sf : State) (found : list string)
    (Hmiss : absent (context_key Scenario.visitor_ab_account_c) s)
    (Hfetch :
       fetchSegmentFlags JSON_stringify pako_deflate network "a:b" (Some "c") s
       = (Returned found, sf)) :
  Scenario.visitor_ab_account_c <> Scenario.visitor_a_account_bc
  /\ context_key Scenario.visitor_ab_account_c
     = context_key Scenario.visitor_a_account_bc
  /\ (forall visitorId,
         context_key {| targetingKey := Some visitorId; accountId := None |}
         = context_key {| targetingKey := Some visitorId;
                          accountId := Some "" |})
  /\ ~ (forall c1 c2 : EvaluationContext,
           context_key c1 = context_key c2 -> c1 = c2)
  /\ (forall flagKey defaultValue,
         resolveBooleanEvaluation JSON_stringify pako_deflate network
           flagKey defaultValue Scenario.visitor_ab_account_c s
         = (Returned (membership_result found flagKey),
            stored "a:b:c" found sf))
  /\ (forall s2 flagKey defaultValue,
         cache s2 = cache (stored "a:b:c" found sf) ->
         now s2 < now sf + cacheTtl (options sf) ->
         resolveBooleanEvaluation JSON_stringify pako_deflate network
           flagKey defaultValue Scenario.visitor_a_account_bc s2
         = (Returned (membership_result found flagKey), s2)).
Proof.
  split; [discriminate|]. split; [reflexivity|]. split; [reflexivity|].
  split; [|split].
  - intros Hinj.
    specialize (Hinj Scenario.visitor_ab_account_c
                  Scenario.visitor_a_account_bc eq_refl).
    discriminate.
  - intros fk dv.
    rewrite (resolveBoolean_miss _ _ _ fk dv Scenario.visitor_ab_account_c s
               eq_refl Hmiss).
    cbn [Scenario.visitor_ab_account_c targetingKey accountId or_empty].
    now rewrite Hfetch.
  - intros s2 fk dv Hcache Hlive.
    now apply (resolveBoolean_served _ _ _ fk dv
                 Scenario.visitor_a_account_bc "a:b:c" found sf s2).
Qed.

(** A flag set fetched for visitor "a:b" of account "c" answers, 10 ms
    later, a resolution for visitor "a" of account "b:c". *)
Lemma cache_key_collision_witness :
  resolveBooleanEvaluation Reference.JSON_stringify Reference.pako_deflate
    (Scenario.serving ["flag1"]) "flag1" false Scenario.visitor_a_account_bc
    (set_now 1015
       (snd (resolveBooleanEvaluation Reference.JSON_stringify
               Reference.pako_deflate (Scenario.serving ["flag1"])
               "flag1" false Scenario.visitor_ab_account_c Scenario.provider)))
  = (Returned enabled_result,
     set_now 1015
       (snd (resolveBooleanEvaluation Reference.JSON_stringify
               Reference.pako_deflate (Scenario.serving ["flag1"])
               "flag1" false Scenario.visitor_ab_account_c Scenario.provider))).
Proof.
  assert (Hmiss : absent (context_key Scenario.visitor_ab_account_c)
                    Scenario.provider)
    by (left; vm_compute; reflexivity).
  destruct (cache_key_collision Reference.JSON_stringify Reference.pako_deflate
              (Scenario.serving ["flag1"]) Scenario.provider
              (snd (fetchSegmentFlags Reference.JSON_stringify
                      Reference.pako_deflate (Scenario.serving ["flag1"])
                      "a:b" (Some "c") Scenario.provider))
              ["flag1"] Hmiss ltac:(vm_compute; reflexivity))
    as (_ & _ & _ & _ & Hfirst & Hsecond).
  rewrite Hfirst. cbn [snd].
  apply (Hsecond _ "flag1" false); [reflexivity | vm_compute; reflexivity].
Defined.

(** The pair of contexts C10 names does not collide: visitor "a:b" without
    an account has key "a:b:", visitor "a" with account "b" has key
    "a:b". *)
Lemma cache_key_collision_counterexample :
  context_key {| targetingKey := Some "a:b"; accountId := None |} = "a:b:"
  /\ context_key {| targetingKey := Some "a"; accountId := Some "b" |} = "a:b"
  /\ context_key {| targetingKey := Some "a:b"; accountId := None |}
     <> context_key {| targetingKey := Some "a"; accountId := Some "b" |}.
Proof. repeat split. discriminate. Qed.

(** * Further properties of the server provider *)

Lemma absent_or_live key s :
  absent key s \/ exists entry, cache s !! key = Some entry /\ live (now s) entry.
Proof.
  unfold absent, live. destruct (cache s !! key) as [entry|] eqn:E.
  - destruct (Z_lt_le_dec (now s) (expiresAt entry)).
    + right. exists entry. split; [reflexivity | assumption].
    + left. right. exists entry. split; [reflexivity | assumption].
  - left. left. reflexivity.
Qed.

(** The typed resolvers leave the state of the boolean resolution they
    run. *)
Lemma typed_resolvers_state JSON_stringify pako_deflate network
    flagKey context s :
  (forall d,
      snd (resolveStringEvaluation JSON_stringify pako_deflate network
             flagKey d context s)
      = snd (resolveBooleanEvaluation JSON_stringify pako_deflate network
               flagKey false context s))
  /\ (forall d,
         snd (resolveNumberEvaluation JSON_stringify pako_deflate network
                flagKey d context s)
         = snd (resolveBooleanEvaluation JSON_stringify pako_deflate network
                  flagKey false context s))
  /\ (forall d,
         snd (resolveObjectEvaluation JSON_stringify pako_deflate network
                flagKey d context s)
         = snd (resolveBooleanEvaluation JSON_stringify pako_deflate network
                  flagKey false context s)).
Proof.
  destruct (resolveBoolean_total JSON_stringify pako_deflate network
              flagKey false context s) as (b & s' & Hb).
  repeat split; intros d; rewrite Hb.
  - rewrite (resolveString_by_boolean _ _ _ _ d _ _ _ _ Hb). reflexivity.
  - rewrite (resolveNumber_by_boolean _ _ _ _ d _ _ _ _ Hb). reflexivity.
  - rewrite (resolveObject_by_boolean _ _ _ _ d _ _ _ _ Hb). reflexivity.
Qed.

(** The three ways a boolean resolution can go, with the state it
    leaves. *)
Lemma resolveBoolean_cases JSON_stringify pako_deflate network
    flagKey defaultValue context s :
  (truthy (targetingKey context) = false
   /\ snd (resolveBooleanEvaluation JSON_stringify pako_deflate network
             flagKey defaultValue context s)
      = logged warn_no_visitor s)
  \/ (truthy (targetingKey context) = true
      /\ (exists entry,
             cache s !! context_key context = Some entry
             /\ live (now s) entry)
      /\ snd (resolveBooleanEvaluation JSON_stringify pako_deflate network
                flagKey defaultValue context s) = s)
  \/ (truthy (targetingKey context) = true
      /\ absent (context_key context) s
      /\ exists found,
          snd (resolveBooleanEvaluation JSON_stringify pako_deflate network
                 flagKey defaultValue context s)
          = stored (context_key context) found
              (awaited network
                 (segment_request JSON_stringify pako_deflate (options s)
                    (or_empty (targetingKey context)) (accountId context)) s))
  \/ (truthy (targetingKey context) = true
      /\ absent (context_key context) s
      /\ exists e,
          snd (resolveBooleanEvaluation JSON_stringify pako_deflate network
                 flagKey defaultValue context s)
          = logged (Error "[PendoProvider] Error evaluating flag:" e)
              (logged (Error "[PendoProvider] Failed to fetch segment flags:" e)
                 (awaited network
                    (segment_request JSON_stringify pako_deflate (options s)
                       (or_empty (targetingKey context)) (accountId context))
                    s))).
Proof.
  destruct (truthy (targetingKey context)) eqn:Hv.
  - destruct (absent_or_live (context_key context) s)
      as [Habs | (entry & E & Hlive)].
    + rewrite (resolveBoolean_miss _ _ _ _ _ _ _ Hv Habs).
      rewrite fetchSegmentFlags_run.
      match goal with
      | |- context [match ?o with Returned _ => _ | Threw _ => _ end] =>
          destruct o as [found|e]
      end.
      * right. right. left. repeat split; [assumption|]. now exists found.
      * right. right. right. repeat split; [assumption|]. now exists e.
    + right. left. split; [reflexivity|]. split; [now exists entry|].
      now rewrite (resolveBoolean_hit _ _ _ _ _ _ _ _ Hv E Hlive).
  - left. split; [reflexivity|].
    now rewrite resolveBoolean_no_visitor.
Qed.

Lemma console_grows_nil (s : State) :
  exists records, console s = (console s ++ records)%list.
Proof. exists []. now rewrite app_nil_r. Qed.

Lemma resolveBoolean_frame JSON_stringify pako_deflate network
    flagKey defaultValue context s :
  resolution_frame JSON_stringify pako_deflate context s
    (snd (resolveBooleanEvaluation JSON_stringify pako_deflate network
            flagKey defaultValue context s)).
Proof.
  unfold resolution_frame.
  destruct (resolveBoolean_cases JSON_stringify pako_deflate network
              flagKey defaultValue context s)
    as [(_ & ->) | [(_ & _ & ->) | [(_ & _ & found & ->) | (_ & _ & e & ->)]]].
  - repeat split; cbn; try lia; auto. now eexists.
  - repeat split; try lia; auto. apply console_grows_nil.
  - repeat split; cbn; try lia; auto.
    + intros key Hne. now rewrite lookup_insert_ne.
    + exists []. now rewrite app_nil_r.
  - repeat split; cbn; try lia; auto.
    rewrite <- app_assoc. now eexists.
Qed.

(** X1.  A resolution (boolean or typed) for a context changes neither the
    options nor the status, touches no cache entry other than the one of
    the context's key, never sets the clock back, sends at most one
    request (the segment request of that context), and only appends to the
    console. *)
Theorem resolution_changes_only_own_entry
    (JSON_stringify : JsObject -> string)
    (pako_deflate : string -> list byte)
    (network : list Request -> Request -> Reply)
    (flagKey : string) (context : EvaluationContext) (s : State) :
  (forall d : bool,
      resolution_frame JSON_stringify pako_deflate context s
        (snd (resolveBooleanEvaluation JSON_stringify pako_deflate network
                flagKey d context s)))
  /\ (forall d : string,
         resolution_frame JSON_stringify pako_deflate context s
           (snd (resolveStringEvaluation JSON_stringify pako_deflate network
                   flagKey d context s)))
  /\ (forall d : Z,
         resolution_frame JSON_stringify pako_deflate context s
           (snd (resolveNumberEvaluation JSON_stringify pako_deflate network
                   flagKey d context s)))
  /\ (forall d : JsValue,
         resolution_frame JSON_stringify pako_deflate context s
           (snd (resolveObjectEvaluation JSON_stringify pako_deflate network
                   flagKey d context s))).
Proof.
  destruct (typed_resolvers_state JSON_stringify pako_deflate network
              flagKey context s) as (Hs & Hn & Ho).
  split; [intros d; apply resolveBoolean_frame|].
  split; [|split]; intros d.
  - rewrite Hs. apply resolveBoolean_frame.
  - rewrite Hn. apply resolveBoolean_frame.
  - rewrite Ho. apply resolveBoolean_frame.
Qed.

Lemma absent_later key s s2 :
  absent key s -> cache s2 = cache s -> now s <= now s2 -> absent key s2.
Proof.
  unfold absent. intros [Hnone | (entry & E & Hle)] Hcache Hnow; rewrite Hcache.
  - now left.
  - right. exists entry. split; [assumption | lia].
Qed.

(** X2.  A failed fetch is not cached.  If the resolution has to ask the
    service and [fetchSegmentFlags] throws, the result is the ERROR result
    with the default value, the cache is exactly what it was, and the next
    resolution for the same context asks the service again. *)
Theorem failed_fetch_not_cached
    (JSON_stringify : JsObject -> string)
    (pako_deflate : string -> list byte)
    (network : list Request -> Request -> Reply)
    (flagKey : string) (defaultValue : bool)
    (context : EvaluationContext) (s : State) (e : Thrown)
    (Hvisitor : truthy (targetingKey context) = true)
    (Hmiss : absent (context_key context) s)
    (Hfail :
       fst (fetchSegmentFlags JSON_stringify pako_deflate network
              (or_empty (targetingKey context)) (accountId context) s)
       = Threw e) :
  exists s',
    resolveBooleanEvaluation JSON_stringify pako_deflate network
      flagKey defaultValue context s
    = (Returned (error_result defaultValue (message_of e)), s')
    /\ cache s' = cache s
    /\ forall s2 flagKey' defaultValue',
        cache s2 = cache s' -> now s <= now s2 ->
        requests
          (snd (resolveBooleanEvaluation JSON_stringify pako_deflate network
                  flagKey' defaultValue' context s2))
        = (requests s2
           ++ [segment_request JSON_stringify pako_deflate (options s2)
                 (or_empty (targetingKey context)) (accountId context)])%list.
Proof.
  pose proof (resolveBoolean_miss JSON_stringify pako_deflate network
                flagKey defaultValue context s Hvisitor Hmiss) as Hres.
  pose proof (fetchSegmentFlags_requests JSON_stringify pako_deflate network
                (or_empty (targetingKey context)) (accountId context) s) as Hfr.
  destruct (fetchSegmentFlags _ _ _ _ _ s) as [o sf]. cbn [fst] in Hfail.
  subst o. destruct (Hfr _ _ eq_refl) as (_ & Hcache & _).
  eexists. split; [exact Hres|]. split; [exact Hcache|].
  intros s2 fk dv Hc Hnow.
  apply resolveBoolean_miss_requests; [assumption|].
  apply (absent_later _ s); [assumption | | assumption].
  now rewrite Hc.
Qed.

(** The test "handles network errors", followed by a second resolution. *)
Lemma failed_fetch_not_cached_witness :
  exists s',
    resolveBooleanEvaluation Reference.JSON_stringify Reference.pako_deflate
      Scenario.failing "feature-a" true Scenario.user123 Scenario.provider
    = (Returned (error_result true "Network error"), s')
    /\ cache s' = cache Scenario.provider
    /\ List.length
         (requests
            (snd (resolveBooleanEvaluation Reference.JSON_stringify
                    Reference.pako_deflate Scenario.failing
                    "feature-a" true Scenario.user123 s')))
       = 2%nat.
Proof.
  assert (Hmiss : absent (context_key Scenario.user123) Scenario.provider)
    by (left; vm_compute; reflexivity).
  destruct (failed_fetch_not_cached Reference.JSON_stringify
              Reference.pako_deflate Scenario.failing "feature-a" true
              Scenario.user123 Scenario.provider (ErrorObj "Network error")
              eq_refl Hmiss eq_refl) as (s' & Hrun & Hcache & Hnext).
  exists s'. split; [exact Hrun|]. split; [exact Hcache|].
  rewrite (Hnext s' "feature-a" true eq_refl).
  - rewrite length_app. cbn [List.length].
    assert (Hs' : s' = snd (resolveBooleanEvaluation Reference.JSON_stringify
                        Reference.pako_deflate Scenario.failing "feature-a" true
                        Scenario.user123 Scenario.provider))
      by now rewrite Hrun.
    rewrite Hs'. vm_compute. reflexivity.
  - assert (Hs' : s' = snd (resolveBooleanEvaluation Reference.JSON_stringify
                        Reference.pako_deflate Scenario.failing "feature-a" true
                        Scenario.user123 Scenario.provider))
      by now rewrite Hrun.
    rewrite Hs'. vm_compute. discriminate.
Defined.

(** ** Invariants over sequences of calls *)

Lemma track_state JSON_stringify network name context details s :
  options (snd (track JSON_stringify network name context details s))
  = options s
  /\ cache (snd (track JSON_stringify network name context details s))
     = cache s
  /\ now (snd (track JSON_stringify network name context details s)) = now s
  /\ status (snd (track JSON_stringify network name context details s))
     = status s.
Proof.
  unfold track, Date_now, bind, gets. cbv beta iota.
  destruct (negb (truthy (trackEventSecret (options s)))); [now repeat split|].
  destruct (negb (truthy (targetingKey context))); [now repeat split|].
  unfold fetch_detached. cbv beta iota zeta.
  match goal with
  | |- context [settled ?r] => destruct (settled r)
  end; now repeat split.
Qed.

Lemma initialize_state s :
  options (snd (initialize s)) = options s
  /\ cache (snd (initialize s)) = cache s
  /\ now (snd (initialize s)) = now s.
Proof.
  unfold initialize, bind, gets, throw, modify. cbv beta iota.
  destruct (String.eqb (apiKey (options s)) ""); [now repeat split|].
  destruct (String.eqb (defaultUrl (options s)) ""); now repeat split.
Qed.

(** Every call either leaves the cache and the clock alone, or empties
    the cache, or lets time pass, or is a boolean resolution. *)
Lemma exec_cases JSON_stringify pako_deflate network c s :
  (cache (exec JSON_stringify pako_deflate network c s) = cache s
   /\ now (exec JSON_stringify pako_deflate network c s) = now s
   /\ options (exec JSON_stringify pako_deflate network c s) = options s)
  \/ (cache (exec JSON_stringify pako_deflate network c s) = ∅
      /\ now (exec JSON_stringify pako_deflate network c s) = now s
      /\ options (exec JSON_stringify pako_deflate network c s) = options s)
  \/ (exists ms, exec JSON_stringify pako_deflate network c s
                 = set_now (now s + Z.of_N ms) s)
  \/ (exists flagKey defaultValue context,
         exec JSON_stringify pako_deflate network c s
         = snd (resolveBooleanEvaluation JSON_stringify pako_deflate network
                  flagKey defaultValue context s)).
Proof.
  destruct c; cbn [exec].
  - left. destruct (initialize_state s) as (? & ? & ?). now repeat split.
  - right. left. now repeat split.
  - right. left. now repeat split.
  - left. destruct (track_state JSON_stringify network trackingEventName
                      context trackingEventDetails s) as (? & ? & ? & ?).
    now repeat split.
  - right. right. right. now exists flagKey, defaultValue, context.
  - right. right. right. exists flagKey, false, context.
    apply typed_resolvers_state.
  - right. right. right. exists flagKey, false, context.
    apply typed_resolvers_state.
  - right. right. right. exists flagKey, false, context.
    apply typed_resolvers_state.
  - right. right. left. now exists ms.
Qed.

Lemma exec_options JSON_stringify pako_deflate network c s :
  options (exec JSON_stringify pako_deflate network c s) = options s.
Proof.
  destruct (exec_cases JSON_stringify pako_deflate network c s)
    as [(_ & _ & H) | [(_ & _ & H) | [(ms & ->) | (fk & dv & ctx & ->)]]];
    try assumption; try reflexivity.
  apply (resolveBoolean_frame JSON_stringify pako_deflate network fk dv ctx s).
Qed.

Lemma run_options JSON_stringify pako_deflate network calls s :
  options (run JSON_stringify pako_deflate network calls s) = options s.
Proof.
  unfold run. revert s. induction calls as [|c calls IH]; intros s.
  - reflexivity.
  - cbn [fold_left]. rewrite IH. apply exec_options.
Qed.





Lemma resolveBoolean_all_expired JSON_stringify pako_deflate network
    flagKey defaultValue context s :
  cacheTtl (options s) <= 0 ->
  all_expired s ->
  all_expired (snd (resolveBooleanEvaluation JSON_stringify pako_deflate
                      network flagKey defaultValue context s)).
Proof.
  intros Httl Hinv.
  destruct (resolveBoolean_cases JSON_stringify pako_deflate network
              flagKey defaultValue context s)
    as [(_ & ->) | [(_ & _ & ->) | [(_ & _ & found & ->) | (_ & _ & e & ->)]]];
    unfold all_expired in *; cbn.
  - exact Hinv.
  - exact Hinv.
  - intros key entry.
    destruct (decide (key = context_key context)) as [->|Hne].
    + rewrite lookup_insert_eq. intros [= <-]. cbn. lia.
    + rewrite lookup_insert_ne by congruence. intros E.
      specialize (Hinv key entry E). lia.
  - intros key entry E. specialize (Hinv key entry E). lia.
Qed.

Lemma exec_all_expired JSON_stringify pako_deflate network c s :
  cacheTtl (options s) <= 0 ->
  all_expired s ->
  all_expired (exec JSON_stringify pako_deflate network c s).
Proof.
  intros Httl Hinv.
  destruct (exec_cases JSON_stringify pako_deflate network c s)
    as [(Hc & Hn & Ho) | [(Hc & Hn & Ho) | [(ms & ->) | (fk & dv & ctx & ->)]]].
  - unfold all_expired. rewrite Hc, Hn. exact Hinv.
  - unfold all_expired. rewrite Hc. intros key entry E.
    rewrite lookup_empty in E. discriminate.
  - unfold all_expired in *. cbn. intros key entry E.
    specialize (Hinv key entry E). lia.
  - now apply resolveBoolean_all_expired.
Qed.

Lemma run_all_expired JSON_stringify pako_deflate network calls s :
  cacheTtl (options s) <= 0 ->
  all_expired s ->
  all_expired (run JSON_stringify pako_deflate network calls s).
Proof.
  unfold run. revert s. induction calls as [|c calls IH]; intros s Httl Hs.
  - exact Hs.
  - cbn [fold_left]. apply IH.
    + now rewrite exec_options.
    + now apply exec_all_expired.
Qed.

Lemma all_expired_absent key s : all_expired s -> absent key s.
Proof.
  intros Hinv. unfold absent.
  destruct (cache s !! key) as [entry|] eqn:E; [|now left].
  right. exists entry. split; [reflexivity | now apply (Hinv key)].
Qed.

(** X4.  A TTL that is zero or negative turns the cache off: however the
    provider has been used since its construction, every resolution for a
    context with a visitor id sends a request. *)
Theorem non_positive_ttl_never_serves_from_cache
    (JSON_stringify : JsObject -> string)
    (pako_deflate : string -> list byte)
    (network : list Request -> Request -> Reply)
    (o : PendoProviderOptions) (t ttl : Z) (calls : list Call)
    (flagKey : string) (defaultValue : bool) (context : EvaluationContext)
    (Hoption : opt_cacheTtl o = Some ttl)
    (Httl : ttl <= 0)
    (Hvisitor : truthy (targetingKey context) = true) :
  requests
    (snd (resolveBooleanEvaluation JSON_stringify pako_deflate network
            flagKey defaultValue context
            (run JSON_stringify pako_deflate network calls
               (new_PendoProvider o t))))
  = (requests
       (run JSON_stringify pako_deflate network calls (new_PendoProvider o t))
     ++ [segment_request JSON_stringify pako_deflate (new_options o)
           (or_empty (targetingKey context)) (accountId context)])%list.
Proof.
  assert (Habsent :
    absent (context_key context)
      (run JSON_stringify pako_deflate network calls (new_PendoProvider o t))).
  { apply all_expired_absent, run_all_expired.
    - cbn. rewrite Hoption. exact Httl.
    - intros k e E. cbn in E. rewrite lookup_empty in E. discriminate. }
  pose proof (resolveBoolean_miss_requests JSON_stringify pako_deflate network
                flagKey defaultValue context _ Hvisitor Habsent) as Hreq.
  rewrite run_options in Hreq. exact Hreq.
Qed.

(** With [cacheTtl: 0], the second resolution fetches although nothing
    has happened since the first. *)
Lemma non_positive_ttl_never_serves_from_cache_witness :
  List.length
    (requests
       (snd (resolveBooleanEvaluation Reference.JSON_stringify
               Reference.pako_deflate (Scenario.serving ["flag1"])
               "flag1" false Scenario.user123
               (run Reference.JSON_stringify Reference.pako_deflate
                  (Scenario.serving ["flag1"])
                  [CallResolveBoolean "flag1" false Scenario.user123]
                  (new_PendoProvider
                     {| opt_apiKey := "test-api-key";
                        opt_defaultUrl := "https://example.com";
                        opt_baseUrl := None;
                        opt_cacheTtl := Some 0;
                        opt_trackEventSecret := None |} 1000)))))
  = 2%nat.
Proof.
  rewrite (non_positive_ttl_never_serves_from_cache Reference.JSON_stringify
             Reference.pako_deflate (Scenario.serving ["flag1"])
             {| opt_apiKey := "test-api-key";
                opt_defaultUrl := "https://example.com";
                opt_baseUrl := None;
                opt_cacheTtl := Some 0;
                opt_trackEventSecret := None |} 1000 0
             [CallResolveBoolean "flag1" false Scenario.user123]
             "flag1" false Scenario.user123 eq_refl ltac:(lia) eq_refl).
  rewrite length_app. vm_compute. reflexivity.
Defined.

(** ** Successful responses and the request *)



(** X6.  The request of a cache miss is a GET without body, with the
    [Accept: application/json] header, to
    [baseUrl/data/segmentflag.json/apiKey?jzb=token]; the token has only
    characters of [A-Za-z0-9_-]; and, pako inflating what it deflated,
    [decodeJzb] reads from the token what [JSON.parse] reads from the JSON
    text of [{visitorId, accountId, url: defaultUrl}]. *)
Theorem segment_request_token
    (JSON_stringify : JsObject -> string)
    (JSON_parse : string -> option JsObject)
    (pako_deflate : string -> list byte)
    (pako_inflate : list byte -> option string)
    (network : list Request -> Request -> Reply)
    (flagKey : string) (defaultValue : bool)
    (context : EvaluationContext) (s : State)
    (Hvisitor : truthy (targetingKey context) = true)
    (Hmiss : absent (context_key context) s)
    (Hzlib :
       pako_inflate
         (pako_deflate
            (JSON_stringify
               [ ("visitorId", JStr (or_empty (targetingKey context)));
                 ("accountId", js_of_opt_string (accountId context));
                 ("url", JStr (defaultUrl (options s))) ]))
       = Some (JSON_stringify
                 [ ("visitorId", JStr (or_empty (targetingKey context)));
                   ("accountId", js_of_opt_string (accountId context));
                   ("url", JStr (defaultUrl (options s))) ])) :
  exists token,
    requests
      (snd (resolveBooleanEvaluation JSON_stringify pako_deflate network
              flagKey defaultValue context s))
    = (requests s
       ++ [ {| req_url :=
                 baseUrl (options s) ++ "/data/segmentflag.json/"
                 ++ apiKey (options s) ++ "?jzb=" ++ token;
               req_method := "GET";
               req_headers := [("Accept", "application/json")];
               req_body := None |} ])%list
    /\ all_chars url_safe_char token = true
    /\ decodeJzb JSON_parse pako_inflate token
       = JSON_parse
           (JSON_stringify
              [ ("visitorId", JStr (or_empty (targetingKey context)));
                ("accountId", js_of_opt_string (accountId context));
                ("url", JStr (defaultUrl (options s))) ]).
Proof.
  eexists. split; [|split].
  - rewrite (resolveBoolean_miss_requests _ _ _ _ _ _ _ Hvisitor Hmiss).
    reflexivity.
  - apply encodeJzb_chars.
  - rewrite decodeJzb_unfold, encodeJzb_unfold.
    rewrite repad_of_url_strip_to_url, decode_encode. now rewrite Hzlib.
Qed.

(** The test "uses JZB encoding in API request". *)
Lemma segment_request_token_witness :
  exists token,
    requests
      (snd (resolveBooleanEvaluation Reference.JSON_stringify
              Reference.pako_deflate (Scenario.serving [])
              "flag1" false Scenario.user123_account456 Scenario.provider))
    = [ {| req_url :=
             "https://data.pendo.io/data/segmentflag.json/test-api-key?jzb="
             ++ token;
           req_method := "GET";
           req_headers := [("Accept", "application/json")];
           req_body := None |} ]
    /\ all_chars url_safe_char token = true
    /\ decodeJzb Reference.JSON_parse Reference.pako_inflate token
       = Some [ ("visitorId", JStr "user-123");
                ("accountId", JStr "account-456");
                ("url", JStr "https://example.com") ].
Proof.
  assert (Hmiss : absent (context_key Scenario.user123_account456)
                    Scenario.provider)
    by (left; vm_compute; reflexivity).
  destruct (segment_request_token Reference.JSON_stringify Reference.JSON_parse
              Reference.pako_deflate Reference.pako_inflate
              (Scenario.serving []) "flag1" false Scenario.user123_account456
              Scenario.provider eq_refl Hmiss ltac:(vm_compute; reflexivity))
    as (token & Hreq & Hsafe & Hdecode).
  exists token. split; [exact Hreq|]. split; [exact Hsafe|].
  rewrite Hdecode. vm_compute. reflexivity.
Defined.

(** X7.  Resolution never looks at the lifecycle status: whatever the
    status is (before [initialize], after [onClose], ...), a boolean
    resolution returns the same result and has the same effects, and it
    leaves the status as it found it. *)
Theorem resolution_ignores_status
    (JSON_stringify : JsObject -> string)
    (pako_deflate : string -> list byte)
    (network : list Request -> Request -> Reply)
    (flagKey : string) (defaultValue : bool) (context : EvaluationContext)
    (s : State) (x : ServerProviderStatus) :
  resolveBooleanEvaluation JSON_stringify pako_deflate network
    flagKey defaultValue context (set_status x s)
  = (fst (resolveBooleanEvaluation JSON_stringify pako_deflate network
            flagKey defaultValue context s),
     set_status x
       (snd (resolveBooleanEvaluation JSON_stringify pako_deflate network
               flagKey defaultValue context s))).
Proof.
  destruct (truthy (targetingKey context)) eqn:Hv.
  - destruct (absent_or_live (context_key context) s)
      as [Habs | (entry & E & Hlive)].
    + assert (Habs' : absent (context_key context) (set_status x s))
        by exact Habs.
      rewrite (resolveBoolean_miss _ _ _ _ _ _ _ Hv Habs).
      rewrite (resolveBoolean_miss _ _ _ _ _ _ _ Hv Habs').
      rewrite !fetchSegmentFlags_run.
      cbn [requests options set_status].
      match goal with
      | |- context [match ?o with Returned _ => _ | Threw _ => _ end] =>
          destruct o as [found|e]
      end; reflexivity.
    + rewrite (resolveBoolean_hit _ _ _ _ _ _ s entry Hv E Hlive).
      now rewrite (resolveBoolean_hit _ _ _ _ _ _ (set_status x s) entry Hv E
                     Hlive).
  - now rewrite !resolveBoolean_no_visitor.
Qed.

(** ** The token *)

Lemma strip_to_url_length (bs : list byte) :
  String.length (strip_padding (to_url (Base64.encode bs)))
  = ((4 * List.length bs + 2) / 3)%nat.
Proof.
  induction bs as [|a|a b|a b c rest IH] using list_ind3.
  - reflexivity.
  - cbn [Base64.encode].
    rewrite !strip_to_url_cons by auto with sextet. reflexivity.
  - cbn [Base64.encode].
    rewrite !strip_to_url_cons by auto with sextet. reflexivity.
  - cbn [Base64.encode].
    rewrite !strip_to_url_cons by auto with sextet.
    cbn [String.length List.length]. rewrite IH.
    replace (4 * S (S (S (List.length rest))) + 2)%nat
      with (4 * 3 + (4 * List.length rest + 2))%nat by lia.
    rewrite Nat.div_add_l by discriminate. reflexivity.
Qed.

(** X8.  The URL-safe Base64 step of [encodeJzb] loses nothing and adds
    no padding: the compressed bytes can be read back from the token, two
    payloads with the same token have the same compressed bytes, and a
    token for [n] compressed bytes has exactly [ceil(4n/3)] characters. *)
Theorem encodeJzb_token_lossless
    (JSON_stringify : JsObject -> string)
    (pako_deflate : string -> list byte) :
  (forall P,
      Base64.decode (repad (of_url (encodeJzb JSON_stringify pako_deflate P)))
      = pako_deflate (JSON_stringify P))
  /\ (forall P Q,
         encodeJzb JSON_stringify pako_deflate P
         = encodeJzb JSON_stringify pako_deflate Q ->
         pako_deflate (JSON_stringify P) = pako_deflate (JSON_stringify Q))
  /\ (forall P,
         String.length (encodeJzb JSON_stringify pako_deflate P)
         = ((4 * List.length (pako_deflate (JSON_stringify P)) + 2) / 3)%nat).
Proof.
  assert (Hback : forall P,
    Base64.decode (repad (of_url (encodeJzb JSON_stringify pako_deflate P)))
    = pako_deflate (JSON_stringify P)).
  { intros P. rewrite encodeJzb_unfold.
    now rewrite repad_of_url_strip_to_url, decode_encode. }
  split; [exact Hback|]. split.
  - intros P Q Heq. rewrite <- (Hback P), <- (Hback Q). now rewrite Heq.
  - intros P. rewrite encodeJzb_unfold. apply strip_to_url_length.
Qed.

(** The token of the empty object: 13 bytes, 18 characters. *)
Lemma encodeJzb_token_lossless_witness :
  String.length (encodeJzb Reference.JSON_stringify Reference.pako_deflate [])
  = 18%nat
  /\ Base64.decode
       (repad (of_url
                 (encodeJzb Reference.JSON_stringify Reference.pako_deflate [])))
     = Reference.pako_deflate "{}".
Proof.
  destruct (encodeJzb_token_lossless Reference.JSON_stringify
              Reference.pako_deflate) as (Hback & _ & Hlen).
  split.
  - rewrite Hlen. vm_compute. reflexivity.
  - rewrite Hback. vm_compute. reflexivity.
Defined.

(** * The telemetry hook of the server provider *)



Lemma hook_after_send JSON_stringify_value network o hookContext details s :
  TelemetryHook.tracks o hookContext = true ->
  TelemetryHook.after JSON_stringify_value network o hookContext details s
  = fetch_detached network
      {| req_url := TelemetryHook.baseUrl o ++ "/data/track";
         req_method := "POST";
         req_headers :=
           [ ("Content-Type", "application/json");
             ("x-pendo-track-event-secret", TelemetryHook.trackEventSecret o) ];
         req_body :=
           Some (JSON_stringify_value
                   (JObj
                      [ ("type", JStr "track");
                        ("event", JStr (TelemetryHook.eventName o));
                        ("visitorId",
                         js_of_opt_string
                           (targetingKey (TelemetryHook.context hookContext)));
                        ("accountId",
                         js_of_opt_string
                           (accountId (TelemetryHook.context hookContext)));
                        ("timestamp", JNum (now s));
                        ("properties",
                         JObj (TelemetryHook.properties_of JSON_stringify_value
                                 hookContext details)) ])) |}
      (fun error =>
         console_error
           "[PendoTelemetryHook] Failed to track flag evaluation:" error) s.
Proof.
  unfold TelemetryHook.tracks, TelemetryHook.after. intros H.
  apply andb_prop in H as [Hf Hv]. rewrite Hv. cbn [negb].
  destruct (TelemetryHook.flagFilter o) as [filter|].
  - rewrite Hf. reflexivity.
  - reflexivity.
Qed.



Example hook_properties :
  TelemetryHook.properties_of HookScenario.JSON_stringify_value
    HookScenario.hookContext
    {| TelemetryHook.value := JObj [("enabled", JBool true)];
       TelemetryHook.variant := None;
       TelemetryHook.reason := Some "" |}
  = [ ("flag_key", JStr "test-flag");
      ("flag_variant", JStr "unknown");
      ("flag_reason", JStr "UNKNOWN");
      ("flag_value",
       JStr ("{" ++ Reference.quote "enabled" ++ ":true}"));
      ("provider_name", JStr "pendo-server-provider") ].
Proof. vm_compute. reflexivity. Qed.

(** X10.  The hook sends what [PendoProvider.track] would send.  For a
    provider configured with the hook's secret and base URL, and an
    evaluation the hook tracks, [after] adds to the request log exactly
    the request that [track(eventName, context, properties)] adds, where
    [properties] are the hook's five evaluation properties. *)
Theorem hook_request_is_track_request
    (JSON_stringify_value : JsValue -> string)
    (network : list Request -> Request -> Reply)
    (o : TelemetryHook.HookOptions) (hookContext : TelemetryHook.HookContext)
    (details : TelemetryHook.EvaluationDetails) (s : State)
    (Hsecret : trackEventSecret (options s)
               = Some (TelemetryHook.trackEventSecret o))
    (Hnonempty : TelemetryHook.trackEventSecret o <> "")
    (Hurl : baseUrl (options s) = TelemetryHook.baseUrl o)
    (Htracks : TelemetryHook.tracks o hookContext = true) :
  requests
    (snd (TelemetryHook.after JSON_stringify_value network o hookContext
            details s))
  = requests
      (snd (track (fun payload => JSON_stringify_value (JObj payload)) network
              (TelemetryHook.eventName o) (TelemetryHook.context hookContext)
              (JObj (TelemetryHook.properties_of JSON_stringify_value
                       hookContext details)) s)).
Proof.
  rewrite (hook_after_send _ _ _ _ _ _ Htracks).
  unfold TelemetryHook.tracks in Htracks.
  apply andb_prop in Htracks as [_ Hv].
  unfold track, Date_now, bind, gets. cbv beta iota.
  rewrite Hsecret, Hv, Hurl.
  assert (Ht : truthy (Some (TelemetryHook.trackEventSecret o)) = true).
  { cbn. apply negb_true_iff, String.eqb_neq. exact Hnonempty. }
  rewrite Ht. cbn [negb or_empty].
  unfold fetch_detached. cbv zeta.
  match goal with
  | |- context [settled ?r] => destruct (settled r)
  end; reflexivity.
Qed.

Lemma hook_request_is_track_request_witness :
  requests
    (snd (TelemetryHook.after HookScenario.JSON_stringify_value
            Scenario.failing HookScenario.hook HookScenario.hookContext
            HookScenario.evaluationDetails Scenario.track_provider))
  = requests
      (snd (track
              (fun payload => HookScenario.JSON_stringify_value (JObj payload))
              Scenario.failing "flag_evaluated" Scenario.user123
              (JObj (TelemetryHook.properties_of
                       HookScenario.JSON_stringify_value
                       HookScenario.hookContext
                       HookScenario.evaluationDetails))
              Scenario.track_provider)).
Proof.
  apply (hook_request_is_track_request HookScenario.JSON_stringify_value
           Scenario.failing HookScenario.hook HookScenario.hookContext
           HookScenario.evaluationDetails Scenario.track_provider).
  - reflexivity.
  - discriminate.
  - reflexivity.
  - reflexivity.
Defined.

(** * The web provider *)

(** X11.  On the web each typed resolver has two possible results: the
    "on" representation with reason TARGETING_MATCH and variant "on" when
    the flag key is in [window.pendo.segmentFlags], and the default value
    with reason DEFAULT and variant "default" in every other case
    (disabled flag, no segment flags, no agent, no window).  The "off"
    translation is never returned. *)
Theorem web_typed_resolvers_on_or_default
    (flagKey : string) (context : EvaluationContext) (w : Web.Window) :
  (forall defaultValue : string,
      Web.resolveStringEvaluation flagKey defaultValue context w
      = if Web.enabled flagKey w then
          {| value := "on"; reason := "TARGETING_MATCH"; variant := Some "on";
             errorCode := None; errorMessage := None |}
        else default_result defaultValue)
  /\ (forall defaultValue : Z,
         Web.resolveNumberEvaluation flagKey defaultValue context w
         = if Web.enabled flagKey w then
             {| value := 1; reason := "TARGETING_MATCH"; variant := Some "on";
                errorCode := None; errorMessage := None |}
           else default_result defaultValue)
  /\ (forall defaultValue : JsValue,
         Web.resolveObjectEvaluation flagKey defaultValue context w
         = if Web.enabled flagKey w then
             {| value := object_on; reason := "TARGETING_MATCH";
                variant := Some "on";
                errorCode := None; errorMessage := None |}
           else default_result defaultValue).
Proof.
  unfold Web.resolveStringEvaluation, Web.resolveNumberEvaluation,
    Web.resolveObjectEvaluation, Web.resolveBooleanEvaluation, Web.enabled.
  destruct (Web.getSegmentFlags w) as [found|];
    [destruct (includes found flagKey)|]; repeat split.
Qed.

Lemma web_boolean_by_segment flagKey defaultValue context w :
  Web.resolveBooleanEvaluation flagKey defaultValue context w
  = match Web.getSegmentFlags w with
    | Some found => membership_result found flagKey
    | None => default_result defaultValue
    end.
Proof.
  unfold Web.resolveBooleanEvaluation, membership_result.
  destruct (Web.getSegmentFlags w) as [found|]; [|reflexivity].
  now destruct (includes found flagKey).
Qed.

Lemma web_typed_by_boolean flagKey context w :
  (forall d, Web.resolveStringEvaluation flagKey d context w
             = derived_result "on" "off" d
                 (Web.resolveBooleanEvaluation flagKey false context w))
  /\ (forall d, Web.resolveNumberEvaluation flagKey d context w
                = derived_result 1 0 d
                    (Web.resolveBooleanEvaluation flagKey false context w))
  /\ (forall d, Web.resolveObjectEvaluation flagKey d context w
                = derived_result object_on object_off d
                    (Web.resolveBooleanEvaluation flagKey false context w)).
Proof.
  unfold Web.resolveStringEvaluation, Web.resolveNumberEvaluation,
    Web.resolveObjectEvaluation, Web.resolveBooleanEvaluation.
  destruct (Web.getSegmentFlags w) as [found|];
    [destruct (includes found flagKey)|]; repeat split.
Qed.

(** X12.  The two providers agree.  If the server's [getSegmentFlags]
    yields for a context what [window.pendo.segmentFlags] holds in the
    browser (a flag set, or nothing), then for every flag key and default
    value the server's boolean, string, number and object resolvers
    return what the web provider's return. *)
Theorem web_and_server_agree
    (JSON_stringify : JsObject -> string)
    (pako_deflate : string -> list byte)
    (network : list Request -> Request -> Reply)
    (flagKey : string) (context : EvaluationContext) (s s1 : State)
    (w : Web.Window) (segment : option (list string))
    (Hserver : getSegmentFlags JSON_stringify pako_deflate network context s
               = (Returned segment, s1))
    (Hweb : Web.getSegmentFlags w = segment) :
  (forall d : bool,
      fst (resolveBooleanEvaluation JSON_stringify pako_deflate network
             flagKey d context s)
      = Returned (Web.resolveBooleanEvaluation flagKey d context w))
  /\ (forall d : string,
         fst (resolveStringEvaluation JSON_stringify pako_deflate network
                flagKey d context s)
         = Returned (Web.resolveStringEvaluation flagKey d context w))
  /\ (forall d : Z,
         fst (resolveNumberEvaluation JSON_stringify pako_deflate network
                flagKey d context s)
         = Returned (Web.resolveNumberEvaluation flagKey d context w))
  /\ (forall d : JsValue,
         fst (resolveObjectEvaluation JSON_stringify pako_deflate network
                flagKey d context s)
         = Returned (Web.resolveObjectEvaluation flagKey d context w)).
Proof.
  assert (Hbool : forall d : bool,
    resolveBooleanEvaluation JSON_stringify pako_deflate network
      flagKey d context s
    = (Returned (Web.resolveBooleanEvaluation flagKey d context w), s1)).
  { intros d. rewrite resolveBoolean_by_segment, Hserver.
    rewrite web_boolean_by_segment, Hweb. now destruct segment. }
  destruct (web_typed_by_boolean flagKey context w) as (Hs & Hn & Ho).
  split; [intros d; now rewrite Hbool|].
  split; [|split]; intros d.
  - rewrite (resolveString_by_boolean _ _ _ _ d _ _ _ _ (Hbool false)).
    now rewrite Hs.
  - rewrite (resolveNumber_by_boolean _ _ _ _ d _ _ _ _ (Hbool false)).
    now rewrite Hn.
  - rewrite (resolveObject_by_boolean _ _ _ _ d _ _ _ _ (Hbool false)).
    now rewrite Ho.
Qed.

(** The same two flags on the server and in the browser. *)
Lemma web_and_server_agree_witness :
  fst (resolveStringEvaluation Reference.JSON_stringify Reference.pako_deflate
         (Scenario.serving ["feature-a"; "feature-b"])
         "feature-a" "default" Scenario.user123 Scenario.provider)
  = Returned
      (Web.resolveStringEvaluation "feature-a" "default" Scenario.user123
         (Web.window (WebScenario.browser ["feature-a"; "feature-b"]))).
Proof.
  apply (web_and_server_agree Reference.JSON_stringify Reference.pako_deflate
           (Scenario.serving ["feature-a"; "feature-b"])
           "feature-a" Scenario.user123 Scenario.provider
           (snd (getSegmentFlags Reference.JSON_stringify
                   Reference.pako_deflate
                   (Scenario.serving ["feature-a"; "feature-b"])
                   Scenario.user123 Scenario.provider))
           (Web.window (WebScenario.browser ["feature-a"; "feature-b"]))
           (Some ["feature-a"; "feature-b"])).
  - vm_compute. reflexivity.
  - reflexivity.
Defined.

(** ** [track] of the web provider *)





(** ** Waiting for the agent *)





Example polling_default_timeout :
  Web.waitForPendo
    (Web.new_options {| Web.opt_apiKey := None; Web.opt_readyTimeout := None |})
    52 WebScenario.never_ready 0
  = Web.Resolved 52 true.
Proof. vm_compute. reflexivity. Qed.

(** * The telemetry hook of the web provider *)

(** X15.  The web hook's [after], when the flag filter (if any) accepts
    the flag key and the agent's [track] is there, does exactly what the
    web provider's [track] does with the hook's event name and the five
    evaluation properties: one call of [window.pendo.track].  In every
    other case it changes nothing; unlike [track] it does not warn when
    the agent is missing. *)
Theorem web_hook_delegates_to_agent
    (JSON_stringify_value : JsValue -> string)
    (o : WebHook.HookOptions) (hookContext : TelemetryHook.HookContext)
    (details : TelemetryHook.EvaluationDetails) (env : Web.Env) :
  (match WebHook.flagFilter o with
   | Some filter => filter (TelemetryHook.flagKey hookContext)
   | None => true
   end = true ->
   Web.can_track (Web.window env) = true ->
     WebHook.after JSON_stringify_value o hookContext details env
     = Web.track (WebHook.eventName o) (TelemetryHook.context hookContext)
         [ ("flag_key", JStr (TelemetryHook.flagKey hookContext));
           ("flag_variant",
            JStr (TelemetryHook.or_else (TelemetryHook.variant details)
                    "unknown"));
           ("flag_reason",
            JStr (TelemetryHook.or_else (TelemetryHook.reason details)
                    "UNKNOWN"));
           ("flag_value",
            JStr (WebHook.stringifyValue JSON_stringify_value
                    (TelemetryHook.value details)));
           ("provider_name", JStr (TelemetryHook.providerName hookContext)) ]
         env
     /\ Web.tracked (WebHook.after JSON_stringify_value o hookContext details env)
        = (Web.tracked env
           ++ [ (WebHook.eventName o,
                 [ ("flag_key", TelemetryHook.flagKey hookContext);
                   ("flag_variant",
                    TelemetryHook.or_else (TelemetryHook.variant details)
                      "unknown");
                   ("flag_reason",
                    TelemetryHook.or_else (TelemetryHook.reason details)
                      "UNKNOWN");
                   ("flag_value",
                    WebHook.stringifyValue JSON_stringify_value
                      (TelemetryHook.value details));
                   ("provider_name", TelemetryHook.providerName hookContext) ])
              ])%list)
  /\ (match WebHook.flagFilter o with
      | Some filter => filter (TelemetryHook.flagKey hookContext)
      | None => true
      end = false
      \/ Web.can_track (Web.window env) = false ->
        WebHook.after JSON_stringify_value o hookContext details env = env).
Proof.
  unfold WebHook.after, Web.track. split.
  - intros Hf Hc. rewrite Hc. cbn [negb].
    destruct (WebHook.flagFilter o) as [filter|];
      [rewrite Hf; cbn [negb]|]; split; reflexivity.
  - intros [Hf | Hc].
    + destruct (WebHook.flagFilter o) as [filter|]; [|discriminate].
      now rewrite Hf.
    + rewrite Hc. cbn [negb].
      now destruct (match WebHook.flagFilter o with
                    | Some filter => negb (filter (TelemetryHook.flagKey hookContext))
                    | None => false
                    end).
Qed.

(** The test "calls pendo.track with correct properties". *)
Lemma web_hook_delegates_to_agent_witness :
  Web.tracked
    (WebHook.after HookScenario.JSON_stringify_value
       (WebHook.new_PendoTelemetryHook None None) HookScenario.hookContext
       HookScenario.evaluationDetails (WebScenario.browser ["test-flag"]))
  = [ ("flag_evaluated",
       [ ("flag_key", "test-flag"); ("flag_variant", "on");
         ("flag_reason", "TARGETING_MATCH"); ("flag_value", "true");
         ("provider_name", "pendo-server-provider") ]) ].
Proof.
  destruct (web_hook_delegates_to_agent HookScenario.JSON_stringify_value
              (WebHook.new_PendoTelemetryHook None None)
              HookScenario.hookContext HookScenario.evaluationDetails
              (WebScenario.browser ["test-flag"])) as (Hcall & _).
  destruct (Hcall eq_refl eq_refl) as (_ & Htracked).
  rewrite Htracked. reflexivity.
Defined.
